(** * Roguelike preset parameters of maa-cli

    Shallow embedding of [RoguelikeParams::into_parameters_no_context]
    (crates/maa-cli/src/run/preset/roguelike.rs).

    - User-supplied Rust strings are modelled as lists of Unicode scalar
      values ([ustr], one [N] per [char]); the fixed object keys, which are
      ASCII literals of the source, are [string]s.
    - [MAAValue] is the inductive [value]; an object is an association list
      whose [obj_insert] overwrites an existing key and otherwise appends,
      so each key occurs at most once and is read with [obj_lookup].
    - [log::warn!] is modelled by a log of [warning]s, and [bail!] by an
      error; the function runs in a small writer/error monad [M] whose log
      keeps the warnings emitted before a [bail!], as the log sink does. *)

From Stdlib Require Import List String Ascii ZArith NArith Bool Lia.
Import ListNotations.
Open Scope list_scope.
Set Warnings "-register-all".

(** ** Data model *)

Inductive Theme := Phantom | Mizuki | Sami | Sarkaz | JieGarden.

(** Unicode text: one scalar value per Rust [char]. *)
Definition ustr := list N.

(** The Unicode scalar values of an ASCII literal. *)
Definition of_string (s : string) : ustr :=
  map (fun a => N_of_ascii a) (list_ascii_of_string s).

Definition Theme_to_str (t : Theme) : ustr :=
  match t with
  | Phantom => of_string "Phantom"
  | Mizuki => of_string "Mizuki"
  | Sami => of_string "Sami"
  | Sarkaz => of_string "Sarkaz"
  | JieGarden => of_string "JieGarden"
  end.

(** The fields of [RoguelikeParams]; [i32] fields are [Z]. *)
Record RoguelikeParams := {
  theme : Theme;
  mode : Z;
  squad : option ustr;
  core_char : option ustr;
  roles : option ustr;
  start_count : option Z;
  difficulty : option Z;
  disable_investment : bool;
  investment_with_more_score : bool;
  investments_count : option Z;
  no_stop_when_investment_full : bool;
  use_support : bool;
  use_nonfriend_support : bool;
  start_with_elite_two : bool;
  only_start_with_elite_two : bool;
  stop_at_final_boss : bool;
  stop_when_deposit_full : bool;
  stop_when_level_max : bool;
  refresh_trader_with_dice : bool;
  use_foldartal : bool;
  start_foldartals : list ustr;
  expected_collapsal_paradigms : list ustr;
  sami_first_floor_foldartal : bool;
  sami_first_floor_foldartals : list ustr;
  sami_new_squad2_starting_foldartal : bool;
  sami_new_squad2_starting_foldartals : list ustr;
  start_with_seed : bool;
  seed : option ustr;
  find_playtime_target : option Z;
  collectible_squad : option ustr;
  collectible_shopping : bool;
  collectible_start_awards : option ustr;
  monthly_squad_auto_iterate : bool;
  monthly_squad_check_comms : bool;
  deep_exploration_auto_iterate : bool;
}.

(** [MAAValue]; a [Vec<String>] converts to an array of strings. *)
Inductive value :=
| VStr (s : ustr)
| VInt (z : Z)
| VBool (b : bool)
| VList (l : list ustr)
| VObj (o : list (string * value)).

Definition obj := list (string * value).

Fixpoint obj_lookup (k : string) (o : obj) : option value :=
  match o with
  | [] => None
  | (k', v) :: o' => if String.eqb k k' then Some v else obj_lookup k o'
  end.

Fixpoint obj_insert (k : string) (v : value) (o : obj) : obj :=
  match o with
  | [] => [(k, v)]
  | (k', v') :: o' =>
      if String.eqb k k' then (k', v) :: o' else (k', v') :: obj_insert k v o'
  end.

(** The [=>?] arm of [object!] / [insert!]: insert only a present value. *)
Definition obj_insert_opt {A} (k : string) (f : A -> value) (x : option A)
    (o : obj) : obj :=
  match x with
  | Some a => obj_insert k (f a) o
  | None => o
  end.

(** The [log::warn!] calls of the function, in source order. *)
Inductive warning :=
| WarnSeedFlagIgnored        (* start_with_seed is only meaningful for Sarkaz ... *)
| WarnSeedIgnored            (* seed is provided but start_with_seed is not enabled *)
| WarnCollectibleIgnored     (* Collectible mode parameters are only meaningful ... *)
| WarnMonthlyIgnored         (* Monthly squad parameters are only meaningful ... *)
| WarnDeepIgnored            (* Deep exploration parameters are only meaningful ... *)
| WarnDifficultyIgnored      (* Difficulty is not valid for Phantom theme *)
| WarnUnknownAward (a : ustr). (* Unknown collectible start award: '{}' *)

(** The [bail!] calls of the function. *)
Inductive error :=
| ErrMode5Sami
| ErrMode20001JieGarden
| ErrModeRange
| ErrNoParadigm
| ErrNoSeed
| ErrTargetRange
| ErrNoTarget.

(** ** A writer/error monad *)

(** A computation yields the warnings it logged and its result; after a
    [bail!] the warnings logged so far are kept. *)
Definition M (A : Type) := (list warning * (A + error))%type.

Definition ret {A} (a : A) : M A := ([], inl a).
Definition bail {A} (e : error) : M A := ([], inr e).
Definition warn (x : warning) : M unit := ([x], inl tt).
Definition bind {A B} (m : M A) (k : A -> M B) : M B :=
  match snd m with
  | inl a => (fst m ++ fst (k a), snd (k a))
  | inr e => (fst m, inr e)
  end.

Declare Scope m_scope.
Notation "x <- m ;; k" := (bind m (fun x => k))
  (at level 61, m at next level, right associativity) : m_scope.
Notation "m ;; k" := (bind m (fun _ => k))
  (at level 61, right associativity) : m_scope.
Open Scope m_scope.

Definition when (b : bool) (m : M unit) : M unit := if b then m else ret tt.

(** ** Collectible start awards *)

(** [char::is_whitespace]: the Unicode White_Space property. *)
Definition is_whitespace (c : N) : bool :=
  ((9 <=? c) && (c <=? 13))%N || (c =? 32)%N || (c =? 133)%N
  || (c =? 160)%N || (c =? 5760)%N || ((8192 <=? c) && (c <=? 8202))%N
  || (c =? 8232)%N || (c =? 8233)%N || (c =? 8239)%N || (c =? 8287)%N
  || (c =? 12288)%N.

Fixpoint trim_start (s : ustr) : ustr :=
  match s with
  | c :: s' => if is_whitespace c then trim_start s' else s
  | [] => []
  end.

(** [str::trim]. *)
Definition trim (s : ustr) : ustr := rev (trim_start (rev (trim_start s))).

Definition comma : N := 44%N.

(** [str::split(',')]: always at least one (possibly empty) piece. *)
Fixpoint split_comma (s : ustr) : list ustr :=
  match s with
  | [] => [[]]
  | c :: s' =>
      let parts := split_comma s' in
      if (c =? comma)%N then [] :: parts
      else match parts with
           | p :: ps => (c :: p) :: ps
           | [] => [[c]]
           end
  end.

Definition ustr_eqb (a b : ustr) : bool :=
  if list_eq_dec N.eq_dec a b then true else false.

Definition is_empty {A} (l : list A) : bool :=
  match l with [] => true | _ => false end.

Definition reward_map : list (ustr * string) :=
  [ (of_string "hot_water", "hot_water");
    (of_string "shield", "shield");
    (of_string "ingot", "ingot");
    (of_string "hope", "hope");
    (of_string "random", "random");
    (of_string "key", "key");
    (of_string "dice", "dice");
    (of_string "idea", "ideas");
    (of_string "ticket", "ticket") ]%string.

(** One pass of [for award in awards.split(',')], threading
    [start_rewards] and [valid_count]. *)
Definition award_step (acc : obj * nat) (award : ustr) : M (obj * nat) :=
  let award := trim award in
  match List.find (fun nk => ustr_eqb (fst nk) award) reward_map with
  | Some (_, key) => ret (obj_insert key (VBool true) (fst acc), S (snd acc))
  | None =>
      when (negb (is_empty award)) (warn (WarnUnknownAward award)) ;;
      ret acc
  end.

Fixpoint award_loop (awards : list ustr) (acc : obj * nat) : M (obj * nat) :=
  match awards with
  | [] => ret acc
  | a :: rest => acc' <- award_step acc a ;; award_loop rest acc'
  end.

(** The [if let Some(awards) = &self.collectible_start_awards] block. *)
Definition collectible_awards (awards : option ustr) (value : obj) : M obj :=
  match awards with
  | None => ret value
  | Some awards =>
      r <- award_loop (split_comma awards) ([], 0) ;;
      let (start_rewards, valid_count) := r in
      ret (if 0 <? valid_count
           then obj_insert "collectible_mode_start_list" (VObj start_rewards) value
           else value)
  end.

(** ** [into_parameters_no_context] *)

Definition is_Phantom (t : Theme) : bool :=
  match t with Phantom => true | _ => false end.
Definition is_Sami (t : Theme) : bool :=
  match t with Sami => true | _ => false end.
Definition is_Sarkaz (t : Theme) : bool :=
  match t with Sarkaz => true | _ => false end.
Definition is_JieGarden (t : Theme) : bool :=
  match t with JieGarden => true | _ => false end.

Definition is_some {A} (x : option A) : bool :=
  match x with Some _ => true | None => false end.

(** The leading [match mode { ... }]. *)
Definition check_mode (theme : Theme) (mode : Z) : M unit :=
  if (mode =? 5)%Z && negb (is_Sami theme) then bail ErrMode5Sami
  else if (mode =? 20001)%Z && negb (is_JieGarden theme) then
    bail ErrMode20001JieGarden
  else if ((0 <=? mode)%Z && (mode <=? 7)%Z) || (mode =? 20001)%Z then ret tt
  else bail ErrModeRange.

(** The [match theme { ... }] of theme specific parameters. *)
Definition theme_specific (p : RoguelikeParams) (value : obj) : M obj :=
  let mode := mode p in
  match theme p with
  | Mizuki =>
      ret (obj_insert "refresh_trader_with_dice"
             (VBool (refresh_trader_with_dice p)) value)
  | Sami =>
      let value := obj_insert "use_foldartal" (VBool (use_foldartal p)) value in
      let value :=
        if (mode =? 4)%Z && sami_first_floor_foldartal p
           && negb (is_empty (sami_first_floor_foldartals p))
        then obj_insert "first_floor_foldartal"
               (VList (sami_first_floor_foldartals p)) value
        else value in
      let value :=
        if sami_new_squad2_starting_foldartal p
           && negb (is_empty (sami_new_squad2_starting_foldartals p))
        then obj_insert "start_foldartal_list"
               (VList (sami_new_squad2_starting_foldartals p)) value
        else if negb (is_empty (start_foldartals p))
        then obj_insert "start_foldartal_list" (VList (start_foldartals p)) value
        else value in
      if (mode =? 5)%Z then
        if is_empty (expected_collapsal_paradigms p) then bail ErrNoParadigm
        else
          ret (obj_insert "expected_collapsal_paradigms"
                 (VList (expected_collapsal_paradigms p))
                 (obj_insert "double_check_collapsal_paradigms" (VBool true)
                    (obj_insert "check_collapsal_paradigms" (VBool true) value)))
      else ret value
  | Sarkaz =>
      if (mode =? 1)%Z then
        if start_with_seed p then
          match seed p with
          | Some s => ret (obj_insert "start_with_seed" (VStr s) value)
          | None => bail ErrNoSeed
          end
        else ret value
      else ret value
  | JieGarden =>
      if (mode =? 20001)%Z then
        match find_playtime_target p with
        | Some target =>
            if negb ((1 <=? target)%Z && (target <=? 3)%Z) then bail ErrTargetRange
            else ret (obj_insert "find_playTime_target" (VInt target) value)
        | None => bail ErrNoTarget
        end
      else ret value
  | Phantom => ret value
  end.

(** The warnings for parameters that are ignored ("Validate seed
    parameters", "Validate collectible / monthly squad / deep exploration
    mode parameters"). *)
Definition validate_params (p : RoguelikeParams) : M unit :=
  let theme := theme p in
  let mode := mode p in
  when (start_with_seed p && (negb (is_Sarkaz theme) || negb (mode =? 1)%Z))
    (warn WarnSeedFlagIgnored) ;;
  when (is_some (seed p) && negb (start_with_seed p)) (warn WarnSeedIgnored) ;;
  when (negb (mode =? 4)%Z)
    (when (is_some (collectible_squad p) || collectible_shopping p
           || is_some (collectible_start_awards p))
       (warn WarnCollectibleIgnored)) ;;
  when (negb (mode =? 6)%Z
        && (monthly_squad_auto_iterate p || monthly_squad_check_comms p))
    (warn WarnMonthlyIgnored) ;;
  when (negb (mode =? 7)%Z && deep_exploration_auto_iterate p)
    (warn WarnDeepIgnored).

(** The initial [object!(...)]. *)
Definition base_value (p : RoguelikeParams) : obj :=
  obj_insert "stop_at_max_level" (VBool (stop_when_level_max p))
  (obj_insert "stop_when_deposit_full" (VBool (stop_when_deposit_full p))
  (obj_insert "stop_at_final_boss" (VBool (stop_at_final_boss p))
  (obj_insert_opt "start_count" VInt (start_count p)
  (obj_insert_opt "core_char" VStr (core_char p)
  (obj_insert_opt "roles" VStr (roles p)
  (obj_insert_opt "squad" VStr (squad p)
  (obj_insert "mode" (VInt (mode p))
  (obj_insert "theme" (VStr (Theme_to_str (theme p))) [])))))))).

(** Difficulty setting (not valid for Phantom theme). *)
Definition difficulty_setting (p : RoguelikeParams) (value : obj) : M obj :=
  if is_Phantom (theme p) then
    when (is_some (difficulty p)) (warn WarnDifficultyIgnored) ;;
    ret value
  else ret (obj_insert_opt "difficulty" VInt (difficulty p) value).

(** Investment mode settings. *)
Definition investment_settings (p : RoguelikeParams) (value : obj) : obj :=
  if disable_investment p then obj_insert "investment_enabled" (VBool false) value
  else
    obj_insert "stop_when_investment_full"
      (VBool (negb (no_stop_when_investment_full p)))
    (obj_insert "investment_with_more_score"
       (VBool (investment_with_more_score p))
    (obj_insert_opt "investments_count" VInt (investments_count p)
    (obj_insert "investment_enabled" (VBool true) value))).

(** Support unit settings. *)
Definition support_settings (p : RoguelikeParams) (value : obj) : obj :=
  obj_insert "use_nonfriend_support" (VBool (use_nonfriend_support p))
    (obj_insert "use_support" (VBool (use_support p)) value).

(** Elite settings. *)
Definition elite_settings (p : RoguelikeParams) (value : obj) : obj :=
  if start_with_elite_two p then
    obj_insert "only_start_with_elite_two" (VBool (only_start_with_elite_two p))
      (obj_insert "start_with_elite_two" (VBool true) value)
  else value.

(** Collectible mode settings. *)
Definition collectible_settings (p : RoguelikeParams) (value : obj) : M obj :=
  if (mode p =? 4)%Z then
    let value :=
      obj_insert "collectible_mode_shopping" (VBool (collectible_shopping p))
        (obj_insert_opt "collectible_mode_squad" VStr
           (collectible_squad p) value) in
    collectible_awards (collectible_start_awards p) value
  else ret value.

(** Monthly squad mode settings. *)
Definition monthly_settings (p : RoguelikeParams) (value : obj) : obj :=
  if (mode p =? 6)%Z then
    obj_insert "monthly_squad_check_comms" (VBool (monthly_squad_check_comms p))
      (obj_insert "monthly_squad_auto_iterate"
         (VBool (monthly_squad_auto_iterate p)) value)
  else value.

(** Deep exploration mode settings. *)
Definition deep_settings (p : RoguelikeParams) (value : obj) : obj :=
  if (mode p =? 7)%Z then
    obj_insert "deep_exploration_auto_iterate"
      (VBool (deep_exploration_auto_iterate p)) value
  else value.

Definition into_parameters_no_context (p : RoguelikeParams) : M value :=
  check_mode (theme p) (mode p) ;;
  validate_params p ;;
  value <- difficulty_setting p (base_value p) ;;
  let value := elite_settings p (support_settings p (investment_settings p value)) in
  value <- collectible_settings p value ;;
  let value := deep_settings p (monthly_settings p value) in
  value <- theme_specific p value ;;
  ret (VObj value).

(** A call: the warnings emitted and the result. *)
Definition resolve (p : RoguelikeParams) : list warning * (value + error) :=
  into_parameters_no_context p.

Definition result (p : RoguelikeParams) : value + error := snd (resolve p).
Definition warnings (p : RoguelikeParams) : list warning := fst (resolve p).

Definition is_ok {A E} (r : A + E) : bool :=
  match r with inl _ => true | inr _ => false end.

(** The output object of a successful call. *)
Definition output (p : RoguelikeParams) : option obj :=
  match result p with inl (VObj o) => Some o | _ => None end.

(** [impl ValueEnum for Theme]: the variants, and the name clap accepts
    for each. *)
Definition value_variants : list Theme :=
  [Phantom; Mizuki; Sami; Sarkaz; JieGarden].

Definition to_possible_value (t : Theme) : option ustr := Some (Theme_to_str t).

(** The first variant whose possible value is named [s]. *)
Definition variant_named (s : ustr) : option Theme :=
  List.find (fun v => match to_possible_value v with
                      | Some n => ustr_eqb n s
                      | None => false
                      end) value_variants.

(** Every key [into_parameters_no_context] writes at the top level of its
    object, stage by stage. *)
Definition output_keys : list string :=
  ["theme"; "mode"; "squad"; "roles"; "core_char"; "start_count";
   "stop_at_final_boss"; "stop_when_deposit_full"; "stop_at_max_level";
   "difficulty"; "investment_enabled"; "investments_count";
   "investment_with_more_score"; "stop_when_investment_full";
   "use_support"; "use_nonfriend_support"; "start_with_elite_two";
   "only_start_with_elite_two"; "collectible_mode_squad";
   "collectible_mode_shopping"; "collectible_mode_start_list";
   "monthly_squad_auto_iterate"; "monthly_squad_check_comms";
   "deep_exploration_auto_iterate"; "refresh_trader_with_dice";
   "use_foldartal"; "first_floor_foldartal"; "start_foldartal_list";
   "check_collapsal_paradigms"; "double_check_collapsal_paradigms";
   "expected_collapsal_paradigms"; "start_with_seed";
   "find_playTime_target"]%string.

(** The parameters [maa roguelike <theme>] parses to (the clap defaults). *)
Definition default_params (t : Theme) : RoguelikeParams := {|
  theme := t; mode := 0; squad := None; core_char := None; roles := None;
  start_count := None; difficulty := None; disable_investment := false;
  investment_with_more_score := false; investments_count := None;
  no_stop_when_investment_full := false; use_support := false;
  use_nonfriend_support := false; start_with_elite_two := false;
  only_start_with_elite_two := false; stop_at_final_boss := false;
  stop_when_deposit_full := false; stop_when_level_max := false;
  refresh_trader_with_dice := false; use_foldartal := false;
  start_foldartals := []; expected_collapsal_paradigms := [];
  sami_first_floor_foldartal := false; sami_first_floor_foldartals := [];
  sami_new_squad2_starting_foldartal := false;
  sami_new_squad2_starting_foldartals := []; start_with_seed := false;
  seed := None; find_playtime_target := None; collectible_squad := None;
  collectible_shopping := false; collectible_start_awards := None;
  monthly_squad_auto_iterate := true; monthly_squad_check_comms := true;
  deep_exploration_auto_iterate := true |}.

(** [maa roguelike <theme> --mode <mode>] with no other option. *)
Definition cli (t : Theme) (m : Z) : RoguelikeParams :=
  let p := default_params t in {|
  theme := t; mode := m; squad := squad p; core_char := core_char p;
  roles := roles p; start_count := start_count p; difficulty := difficulty p;
  disable_investment := disable_investment p;
  investment_with_more_score := investment_with_more_score p;
  investments_count := investments_count p;
  no_stop_when_investment_full := no_stop_when_investment_full p;
  use_support := use_support p;
  use_nonfriend_support := use_nonfriend_support p;
  start_with_elite_two := start_with_elite_two p;
  only_start_with_elite_two := only_start_with_elite_two p;
  stop_at_final_boss := stop_at_final_boss p;
  stop_when_deposit_full := stop_when_deposit_full p;
  stop_when_level_max := stop_when_level_max p;
  refresh_trader_with_dice := refresh_trader_with_dice p;
  use_foldartal := use_foldartal p; start_foldartals := start_foldartals p;
  expected_collapsal_paradigms := expected_collapsal_paradigms p;
  sami_first_floor_foldartal := sami_first_floor_foldartal p;
  sami_first_floor_foldartals := sami_first_floor_foldartals p;
  sami_new_squad2_starting_foldartal := sami_new_squad2_starting_foldartal p;
  sami_new_squad2_starting_foldartals := sami_new_squad2_starting_foldartals p;
  start_with_seed := start_with_seed p; seed := seed p;
  find_playtime_target := find_playtime_target p;
  collectible_squad := collectible_squad p;
  collectible_shopping := collectible_shopping p;
  collectible_start_awards := collectible_start_awards p;
  monthly_squad_auto_iterate := monthly_squad_auto_iterate p;
  monthly_squad_check_comms := monthly_squad_check_comms p;
  deep_exploration_auto_iterate := deep_exploration_auto_iterate p |}.

(** [p] with [--difficulty]. *)
Definition with_difficulty (p : RoguelikeParams) (d : option Z) :
    RoguelikeParams := {|
  theme := theme p; mode := mode p; squad := squad p;
  core_char := core_char p; roles := roles p; start_count := start_count p;
  difficulty := d; disable_investment := disable_investment p;
  investment_with_more_score := investment_with_more_score p;
  investments_count := investments_count p;
  no_stop_when_investment_full := no_stop_when_investment_full p;
  use_support := use_support p;
  use_nonfriend_support := use_nonfriend_support p;
  start_with_elite_two := start_with_elite_two p;
  only_start_with_elite_two := only_start_with_elite_two p;
  stop_at_final_boss := stop_at_final_boss p;
  stop_when_deposit_full := stop_when_deposit_full p;
  stop_when_level_max := stop_when_level_max p;
  refresh_trader_with_dice := refresh_trader_with_dice p;
  use_foldartal := use_foldartal p; start_foldartals := start_foldartals p;
  expected_collapsal_paradigms := expected_collapsal_paradigms p;
  sami_first_floor_foldartal := sami_first_floor_foldartal p;
  sami_first_floor_foldartals := sami_first_floor_foldartals p;
  sami_new_squad2_starting_foldartal := sami_new_squad2_starting_foldartal p;
  sami_new_squad2_starting_foldartals := sami_new_squad2_starting_foldartals p;
  start_with_seed := start_with_seed p; seed := seed p;
  find_playtime_target := find_playtime_target p;
  collectible_squad := collectible_squad p;
  collectible_shopping := collectible_shopping p;
  collectible_start_awards := collectible_start_awards p;
  monthly_squad_auto_iterate := monthly_squad_auto_iterate p;
  monthly_squad_check_comms := monthly_squad_check_comms p;
  deep_exploration_auto_iterate := deep_exploration_auto_iterate p |}.

(** [p] with [--start-with-seed] and [--seed]. *)
Definition with_seed (p : RoguelikeParams) (flag : bool) (s : option ustr) :
    RoguelikeParams := {|
  theme := theme p; mode := mode p; squad := squad p;
  core_char := core_char p; roles := roles p; start_count := start_count p;
  difficulty := difficulty p; disable_investment := disable_investment p;
  investment_with_more_score := investment_with_more_score p;
  investments_count := investments_count p;
  no_stop_when_investment_full := no_stop_when_investment_full p;
  use_support := use_support p;
  use_nonfriend_support := use_nonfriend_support p;
  start_with_elite_two := start_with_elite_two p;
  only_start_with_elite_two := only_start_with_elite_two p;
  stop_at_final_boss := stop_at_final_boss p;
  stop_when_deposit_full := stop_when_deposit_full p;
  stop_when_level_max := stop_when_level_max p;
  refresh_trader_with_dice := refresh_trader_with_dice p;
  use_foldartal := use_foldartal p; start_foldartals := start_foldartals p;
  expected_collapsal_paradigms := expected_collapsal_paradigms p;
  sami_first_floor_foldartal := sami_first_floor_foldartal p;
  sami_first_floor_foldartals := sami_first_floor_foldartals p;
  sami_new_squad2_starting_foldartal := sami_new_squad2_starting_foldartal p;
  sami_new_squad2_starting_foldartals := sami_new_squad2_starting_foldartals p;
  start_with_seed := flag; seed := s;
  find_playtime_target := find_playtime_target p;
  collectible_squad := collectible_squad p;
  collectible_shopping := collectible_shopping p;
  collectible_start_awards := collectible_start_awards p;
  monthly_squad_auto_iterate := monthly_squad_auto_iterate p;
  monthly_squad_check_comms := monthly_squad_check_comms p;
  deep_exploration_auto_iterate := deep_exploration_auto_iterate p |}.

(** [p] with [--collectible-start-awards]. *)
Definition with_awards (p : RoguelikeParams) (a : option ustr) :
    RoguelikeParams := {|
  theme := theme p; mode := mode p; squad := squad p;
  core_char := core_char p; roles := roles p; start_count := start_count p;
  difficulty := difficulty p; disable_investment := disable_investment p;
  investment_with_more_score := investment_with_more_score p;
  investments_count := investments_count p;
  no_stop_when_investment_full := no_stop_when_investment_full p;
  use_support := use_support p;
  use_nonfriend_support := use_nonfriend_support p;
  start_with_elite_two := start_with_elite_two p;
  only_start_with_elite_two := only_start_with_elite_two p;
  stop_at_final_boss := stop_at_final_boss p;
  stop_when_deposit_full := stop_when_deposit_full p;
  stop_when_level_max := stop_when_level_max p;
  refresh_trader_with_dice := refresh_trader_with_dice p;
  use_foldartal := use_foldartal p; start_foldartals := start_foldartals p;
  expected_collapsal_paradigms := expected_collapsal_paradigms p;
  sami_first_floor_foldartal := sami_first_floor_foldartal p;
  sami_first_floor_foldartals := sami_first_floor_foldartals p;
  sami_new_squad2_starting_foldartal := sami_new_squad2_starting_foldartal p;
  sami_new_squad2_starting_foldartals := sami_new_squad2_starting_foldartals p;
  start_with_seed := start_with_seed p; seed := seed p;
  find_playtime_target := find_playtime_target p;
  collectible_squad := collectible_squad p;
  collectible_shopping := collectible_shopping p;
  collectible_start_awards := a;
  monthly_squad_auto_iterate := monthly_squad_auto_iterate p;
  monthly_squad_check_comms := monthly_squad_check_comms p;
  deep_exploration_auto_iterate := deep_exploration_auto_iterate p |}.

(** [p] with [--sami-new-squad2-starting-foldartal],
    [--sami-new-squad2-starting-foldartals] and [--start-foldartals]. *)
Definition with_foldartals (p : RoguelikeParams) (flag : bool)
    (squad2 general : list ustr) : RoguelikeParams := {|
  theme := theme p; mode := mode p; squad := squad p;
  core_char := core_char p; roles := roles p; start_count := start_count p;
  difficulty := difficulty p; disable_investment := disable_investment p;
  investment_with_more_score := investment_with_more_score p;
  investments_count := investments_count p;
  no_stop_when_investment_full := no_stop_when_investment_full p;
  use_support := use_support p;
  use_nonfriend_support := use_nonfriend_support p;
  start_with_elite_two := start_with_elite_two p;
  only_start_with_elite_two := only_start_with_elite_two p;
  stop_at_final_boss := stop_at_final_boss p;
  stop_when_deposit_full := stop_when_deposit_full p;
  stop_when_level_max := stop_when_level_max p;
  refresh_trader_with_dice := refresh_trader_with_dice p;
  use_foldartal := use_foldartal p; start_foldartals := general;
  expected_collapsal_paradigms := expected_collapsal_paradigms p;
  sami_first_floor_foldartal := sami_first_floor_foldartal p;
  sami_first_floor_foldartals := sami_first_floor_foldartals p;
  sami_new_squad2_starting_foldartal := flag;
  sami_new_squad2_starting_foldartals := squad2;
  start_with_seed := start_with_seed p; seed := seed p;
  find_playtime_target := find_playtime_target p;
  collectible_squad := collectible_squad p;
  collectible_shopping := collectible_shopping p;
  collectible_start_awards := collectible_start_awards p;
  monthly_squad_auto_iterate := monthly_squad_auto_iterate p;
  monthly_squad_check_comms := monthly_squad_check_comms p;
  deep_exploration_auto_iterate := deep_exploration_auto_iterate p |}.

(** ** Checks against the unit test [parse_roguellike_params] *)

Definition test_default_obj (t : Theme) : obj :=
  [("theme", VStr (Theme_to_str t)); ("mode", VInt 0);
   ("stop_at_final_boss", VBool false); ("stop_when_deposit_full", VBool false);
   ("stop_at_max_level", VBool false); ("investment_enabled", VBool true);
   ("investment_with_more_score", VBool false);
   ("stop_when_investment_full", VBool true); ("use_support", VBool false);
   ("use_nonfriend_support", VBool false)]%string.

Example test_phantom_default :
  output (default_params Phantom) = Some (test_default_obj Phantom).
Proof. reflexivity. Qed.

Example test_phantom_mode5 :
  result {| theme := Phantom; mode := 5; squad := None; core_char := None;
            roles := None; start_count := None; difficulty := None;
            disable_investment := false; investment_with_more_score := false;
            investments_count := None; no_stop_when_investment_full := false;
            use_support := false; use_nonfriend_support := false;
            start_with_elite_two := false; only_start_with_elite_two := false;
            stop_at_final_boss := false; stop_when_deposit_full := false;
            stop_when_level_max := false; refresh_trader_with_dice := false;
            use_foldartal := false; start_foldartals := [];
            expected_collapsal_paradigms := [];
            sami_first_floor_foldartal := false;
            sami_first_floor_foldartals := [];
            sami_new_squad2_starting_foldartal := false;
            sami_new_squad2_starting_foldartals := []; start_with_seed := false;
            seed := None; find_playtime_target := None;
            collectible_squad := None; collectible_shopping := false;
            collectible_start_awards := None; monthly_squad_auto_iterate := true;
            monthly_squad_check_comms := true;
            deep_exploration_auto_iterate := true |} = inr ErrMode5Sami.
Proof. reflexivity. Qed.

(** ** Lemmas on objects and the monad *)

Lemma obj_lookup_insert k k' v o :
  obj_lookup k (obj_insert k' v o) =
  if String.eqb k k' then Some v else obj_lookup k o.
Proof.
  induction o as [|[k0 v0] o IH]; cbn.
  - reflexivity.
  - destruct (String.eqb k' k0) eqn:E1; cbn.
    + apply String.eqb_eq in E1; subst k0.
      destruct (String.eqb k k'); reflexivity.
    + rewrite IH. destruct (String.eqb k k0) eqn:E2, (String.eqb k k') eqn:E3;
        try reflexivity.
      apply String.eqb_eq in E2, E3; subst.
      rewrite String.eqb_refl in E1; discriminate.
Qed.

Lemma obj_lookup_insert_opt {A} k k' (f : A -> value) x o :
  obj_lookup k (obj_insert_opt k' f x o) =
  if String.eqb k k' then
    match x with Some a => Some (f a) | None => obj_lookup k o end
  else obj_lookup k o.
Proof.
  destruct x; cbn; [apply obj_lookup_insert|].
  destruct (String.eqb k k'); reflexivity.
Qed.

Lemma when_log b ws :
  when b (ws, inl tt) = (if b then ws else [], inl tt).
Proof. destruct b; reflexivity. Qed.

Lemma snd_bind {A B} (m : M A) (k : A -> M B) :
  snd (bind m k) = match snd m with inl a => snd (k a) | inr e => inr e end.
Proof. unfold bind. destruct (snd m); reflexivity. Qed.

Lemma fst_bind {A B} (m : M A) (k : A -> M B) :
  fst (bind m k) = fst m ++ match snd m with inl a => fst (k a) | inr _ => [] end.
Proof. unfold bind. destruct (snd m); cbn; [reflexivity | now rewrite app_nil_r]. Qed.

(** ** The stages of [into_parameters_no_context] *)

Lemma check_mode_log t m : fst (check_mode t m) = [].
Proof.
  unfold check_mode.
  destruct (_ && _); [reflexivity|]. destruct (_ && _); [reflexivity|].
  destruct (_ || _); reflexivity.
Qed.

Lemma validate_params_ok p : snd (validate_params p) = inl tt.
Proof. unfold validate_params, warn. rewrite !when_log. reflexivity. Qed.

(** The object after the difficulty setting. *)
Definition difficulty_value (p : RoguelikeParams) (value : obj) : obj :=
  if is_Phantom (theme p) then value
  else obj_insert_opt "difficulty" VInt (difficulty p) value.

Lemma difficulty_setting_ok p v :
  snd (difficulty_setting p v) = inl (difficulty_value p v).
Proof.
  unfold difficulty_setting, difficulty_value, warn.
  destruct (is_Phantom (theme p)); [rewrite when_log|]; reflexivity.
Qed.

(** The object the collectible mode settings start from. *)
Definition pre_collectible (p : RoguelikeParams) : obj :=
  elite_settings p (support_settings p
    (investment_settings p (difficulty_value p (base_value p)))).

Lemma result_eq p :
  result p =
  match snd (check_mode (theme p) (mode p)) with
  | inr e => inr e
  | inl _ =>
      match snd (collectible_settings p (pre_collectible p)) with
      | inr e => inr e
      | inl v =>
          match snd (theme_specific p (deep_settings p (monthly_settings p v))) with
          | inl v' => inl (VObj v')
          | inr e => inr e
          end
      end
  end.
Proof.
  unfold result, resolve, into_parameters_no_context.
  rewrite snd_bind. destruct (snd (check_mode _ _)); [|reflexivity].
  rewrite snd_bind, validate_params_ok, snd_bind, difficulty_setting_ok.
  rewrite snd_bind. unfold pre_collectible.
  destruct (snd (collectible_settings _ _)); [|reflexivity].
  rewrite snd_bind. destruct (snd (theme_specific _ _)); reflexivity.
Qed.

Lemma warnings_eq p :
  snd (check_mode (theme p) (mode p)) = inl tt ->
  exists rest, warnings p = fst (validate_params p) ++
                            fst (difficulty_setting p (base_value p)) ++ rest.
Proof.
  intros Hc. unfold warnings, resolve, into_parameters_no_context.
  rewrite fst_bind, check_mode_log, Hc. cbn [app].
  rewrite fst_bind, validate_params_ok, fst_bind. eexists; reflexivity.
Qed.

(** ** Frames: the keys a stage may write *)

Definition theme_keys : list string :=
  ["refresh_trader_with_dice"; "use_foldartal"; "first_floor_foldartal";
   "start_foldartal_list"; "check_collapsal_paradigms";
   "double_check_collapsal_paradigms"; "expected_collapsal_paradigms";
   "start_with_seed"; "find_playTime_target"]%string.

Definition collectible_keys : list string :=
  ["collectible_mode_squad"; "collectible_mode_shopping";
   "collectible_mode_start_list"]%string.

(** Rewrites the lookups of [k] through inserts of other keys, [Hk]
    saying that [k] is none of them. *)
Ltac lookup_simpl Hk :=
  repeat rewrite ?obj_lookup_insert, ?obj_lookup_insert_opt;
  repeat match goal with
  | |- context [String.eqb ?k ?c] =>
      destruct (String.eqb_spec k c);
      [subst; exfalso; apply Hk; cbn; tauto|]
  end.

Lemma theme_specific_frame p v v' :
  snd (theme_specific p v) = inl v' ->
  forall k, ~ In k theme_keys -> obj_lookup k v' = obj_lookup k v.
Proof.
  intros H k Hk. unfold theme_specific in H.
  destruct (theme p); cbn in H.
  - injection H as <-. reflexivity.
  - injection H as <-. lookup_simpl Hk. reflexivity.
  - destruct ((mode p =? 5)%Z).
    + destruct (is_empty (expected_collapsal_paradigms p)); [discriminate|].
      injection H as <-. lookup_simpl Hk.
      destruct (sami_new_squad2_starting_foldartal p && _);
        [|destruct (negb (is_empty (start_foldartals p)))];
        lookup_simpl Hk;
        destruct (_ && _ && _); lookup_simpl Hk; reflexivity.
    + injection H as <-.
      destruct (sami_new_squad2_starting_foldartal p && _);
        [|destruct (negb (is_empty (start_foldartals p)))];
        lookup_simpl Hk;
        destruct (_ && _ && _); lookup_simpl Hk; reflexivity.
  - destruct ((mode p =? 1)%Z); [|injection H as <-; reflexivity].
    destruct (start_with_seed p); [|injection H as <-; reflexivity].
    destruct (seed p); [|discriminate].
    injection H as <-. lookup_simpl Hk. reflexivity.
  - destruct ((mode p =? 20001)%Z); [|injection H as <-; reflexivity].
    destruct (find_playtime_target p) as [t|]; [|discriminate].
    destruct (negb _); [discriminate|].
    injection H as <-. lookup_simpl Hk. reflexivity.
Qed.

(** ** The award loop *)

(** The output key of a (trimmed) award token, as [reward_map.iter().find]. *)
Definition award_key (award : ustr) : option string :=
  match List.find (fun nk => ustr_eqb (fst nk) award) reward_map with
  | Some (_, key) => Some key
  | None => None
  end.

(** [k] is the key of some token of [awards]. *)
Definition recognized (awards : list ustr) (k : string) : bool :=
  existsb (fun a => match award_key (trim a) with
                    | Some k' => String.eqb k k'
                    | None => false
                    end) awards.

(** The tokens that are warned about as unknown. *)
Definition unknown_awards (awards : list ustr) : list ustr :=
  filter (fun a => negb (is_empty a) && negb (is_some (award_key a)))
    (map trim awards).

Lemma award_step_eq acc a :
  award_step acc a =
  match award_key (trim a) with
  | Some key => ret (obj_insert key (VBool true) (fst acc), S (snd acc))
  | None => when (negb (is_empty (trim a))) (warn (WarnUnknownAward (trim a))) ;;
            ret acc
  end.
Proof.
  unfold award_step, award_key.
  destruct (List.find _ _) as [[n k]|]; reflexivity.
Qed.

Lemma obj_insert_keys_nodup k v o :
  NoDup (map fst o) -> NoDup (map fst (obj_insert k v o)).
Proof.
  induction o as [|[k0 v0] o IH]; cbn; intros Hn.
  - constructor; [intros []|constructor].
  - inversion Hn as [|? ? Hnot Hn']; subst.
    destruct (String.eqb_spec k k0); cbn.
    + constructor; assumption.
    + constructor; [|now apply IH].
      intros Hin. apply Hnot. clear - Hin n.
      induction o as [|[k1 v1] o IH]; cbn in *.
      * destruct Hin as [->|[]]. contradiction.
      * destruct (String.eqb_spec k k1); cbn in *; [assumption|].
        destruct Hin as [->|Hin]; [now left|right; auto].
Qed.

Lemma award_loop_spec awards R n :
  exists R' n',
    snd (award_loop awards (R, n)) = inl (R', n') /\
    (forall k, obj_lookup k R' =
               if recognized awards k then Some (VBool true) else obj_lookup k R) /\
    (0 < n' <-> 0 < n \/ exists a, In a awards /\ award_key (trim a) <> None) /\
    (NoDup (map fst R) -> NoDup (map fst R')).
Proof.
  revert R n. induction awards as [|a awards IH]; intros R n.
  - exists R, n. cbn. repeat split; auto.
    + intros [H|[a [[] _]]]; assumption.
  - cbn [award_loop]. rewrite snd_bind, award_step_eq.
    destruct (award_key (trim a)) as [key|] eqn:Ek.
    + cbn [snd ret fst].
      destruct (IH (obj_insert key (VBool true) R) (S n))
        as (R' & n' & E & Hl & Hc & Hd).
      exists R', n'. repeat split.
      * exact E.
      * intros k. rewrite Hl, obj_lookup_insert. cbn [recognized existsb].
        unfold recognized. rewrite Ek.
        destruct (String.eqb k key), (existsb _ awards); reflexivity.
      * intros _. right. exists a. split; [now left|congruence].
      * intros _. apply Hc. left. lia.
      * intros Hn. apply Hd. now apply obj_insert_keys_nodup.
    + unfold warn. rewrite when_log. cbn [snd bind ret fst].
      destruct (IH R n) as (R' & n' & E & Hl & Hc & Hd).
      exists R', n'. repeat split.
      * exact E.
      * intros k. rewrite Hl. unfold recognized. cbn [existsb]. rewrite Ek.
        reflexivity.
      * intros H. apply Hc in H. destruct H as [H|(a' & Ha & Hk)]; [now left|].
        right. exists a'. split; [now right|assumption].
      * intros [H|(a' & [<-|Ha] & Hk)]; apply Hc; [now left|congruence|].
        right. exists a'. now split.
      * exact Hd.
Qed.

Lemma award_loop_log awards acc :
  fst (award_loop awards acc) = map WarnUnknownAward (unknown_awards awards).
Proof.
  revert acc. induction awards as [|a awards IH]; intros acc; [reflexivity|].
  cbn [award_loop]. rewrite fst_bind, award_step_eq.
  unfold unknown_awards. cbn [map filter].
  destruct (award_key (trim a)) as [key|] eqn:Ek.
  - cbn [fst snd ret app]. rewrite IH. cbn [is_some negb].
    rewrite andb_false_r. reflexivity.
  - unfold warn. rewrite when_log. cbn [fst snd bind ret].
    rewrite IH. unfold unknown_awards.
    destruct (is_empty (trim a)); cbn; reflexivity.
Qed.

Lemma collectible_awards_spec awards v :
  exists v', snd (collectible_awards awards v) = inl v' /\
    forall k, k <> "collectible_mode_start_list"%string ->
              obj_lookup k v' = obj_lookup k v.
Proof.
  destruct awards as [s|]; unfold collectible_awards.
  - destruct (award_loop_spec (split_comma s) [] 0) as (R & n & E & _).
    rewrite snd_bind.
    match goal with
    | |- context [snd (award_loop ?a ?b)] =>
        replace (snd (award_loop a b)) with (@inl (obj * nat) error (R, n))
          by exact (eq_sym E)
    end.
    eexists; split; [reflexivity|].
    intros k Hk. destruct (0 <? n); [|reflexivity].
    rewrite obj_lookup_insert. destruct (String.eqb_spec k "collectible_mode_start_list");
      [contradiction|reflexivity].
  - eexists; split; [reflexivity|]. reflexivity.
Qed.

Lemma collectible_settings_spec p v :
  exists v', snd (collectible_settings p v) = inl v' /\
    forall k, ~ In k collectible_keys -> obj_lookup k v' = obj_lookup k v.
Proof.
  unfold collectible_settings. destruct (mode p =? 4)%Z.
  - destruct (collectible_awards_spec (collectible_start_awards p)
                (obj_insert "collectible_mode_shopping" (VBool (collectible_shopping p))
                   (obj_insert_opt "collectible_mode_squad" VStr
                      (collectible_squad p) v))) as (v' & E & Hf).
    exists v'. split; [exact E|]. intros k Hk.
    rewrite Hf by (intros ->; apply Hk; cbn; tauto). lookup_simpl Hk. reflexivity.
  - eexists; split; [reflexivity|]. reflexivity.
Qed.

Lemma pre_theme_absent p v :
  snd (collectible_settings p (pre_collectible p)) = inl v ->
  forall k, In k theme_keys ->
            obj_lookup k (deep_settings p (monthly_settings p v)) = None.
Proof.
  intros Hv k Hk.
  destruct (collectible_settings_spec p (pre_collectible p)) as (v' & E & Hf).
  rewrite Hv in E. injection E as <-.
  unfold deep_settings, monthly_settings.
  cbn in Hk; repeat destruct Hk as [<-|Hk]; try contradiction;
    destruct (mode p =? 7)%Z, (mode p =? 6)%Z;
    rewrite ?obj_lookup_insert; cbn -[obj_lookup];
    (rewrite Hf by (cbn; intuition discriminate));
    unfold pre_collectible, elite_settings, support_settings,
      investment_settings, difficulty_value, base_value;
    destruct (start_with_elite_two p), (disable_investment p),
      (is_Phantom (theme p));
    repeat rewrite ?obj_lookup_insert, ?obj_lookup_insert_opt; reflexivity.
Qed.

(** Reduces [result p] / [output p] to the theme specific stage, for
    parameters whose mode passes [check_mode]; [V] is the object that
    stage starts from, and [HV] says it has none of [theme_keys]. *)
Ltac enter_theme_stage p Hchk :=
  unfold output; rewrite result_eq, Hchk;
  let v := fresh "v" in
  let Ev := fresh "Ev" in
  let Hf := fresh "Hfv" in
  destruct (collectible_settings_spec p (pre_collectible p)) as (v & Ev & Hf);
  rewrite Ev;
  let HV := fresh "HV" in
  pose proof (pre_theme_absent p v Ev) as HV;
  revert HV;
  match goal with
  | |- context [theme_specific p (deep_settings p (monthly_settings p v))] =>
      generalize (deep_settings p (monthly_settings p v));
      let V := fresh "V" in intros V HV
  end;
  unfold theme_specific.

Lemma check_mode_legal t m :
  snd (check_mode t m) = inl tt <->
  ~ ((m = 5 /\ t <> Sami) \/ (m = 20001 /\ t <> JieGarden)
     \/ ~ ((0 <= m <= 7) \/ m = 20001))%Z.
Proof.
  unfold check_mode.
  destruct (Z.eqb_spec m 5) as [->|H5];
    [destruct t; cbn; split; intros H; try discriminate; try reflexivity;
     try (exfalso; apply H; left; split; [reflexivity|discriminate]);
     intros [[_ Ht]|[[Hm _]|Hr]]; [now apply Ht|discriminate|apply Hr; left; lia]|].
  destruct (Z.eqb_spec m 20001) as [->|H20];
    [destruct t; cbn; split; intros H; try discriminate; try reflexivity;
     try (exfalso; apply H; right; left; split; [reflexivity|discriminate]);
     intros [[Hm _]|[[_ Ht]|Hr]]; [discriminate|now apply Ht|apply Hr; right; reflexivity]|].
  cbn [andb negb orb].
  destruct ((0 <=? m)%Z && (m <=? 7)%Z) eqn:Hr; cbn.
  - apply andb_true_iff in Hr as [H1 H2]. apply Z.leb_le in H1, H2.
    split; [|reflexivity]. intros _ [[]|[[]|Hn]]; try contradiction.
    apply Hn. left. lia.
  - split; [discriminate|]. intros H. exfalso. apply H. right. right.
    intros [Hin|]; [|contradiction].
    destruct Hin as [H1 H2]. apply Z.leb_le in H1, H2. rewrite H1, H2 in Hr.
    discriminate.
Qed.

(** * Claims *)

(** C3: for the JieGarden theme with mode 20001, a missing playtime
    target or one outside 1..=3 is a fatal error; a target in 1..=3 gives
    a successful resolution whose [find_playTime_target] key is that
    target. *)
Theorem jiegarden_playtime_target p :
  theme p = JieGarden -> mode p = 20001%Z ->
  (find_playtime_target p = None -> result p = inr ErrNoTarget) /\
  (forall target, find_playtime_target p = Some target ->
     (target < 1 \/ 3 < target)%Z -> result p = inr ErrTargetRange) /\
  (forall target, find_playtime_target p = Some target -> (1 <= target <= 3)%Z ->
     exists o, output p = Some o /\
               obj_lookup "find_playTime_target" o = Some (VInt target)).
Proof.
  intros Ht Hm.
  assert (Hchk : snd (check_mode (theme p) (mode p)) = inl tt)
    by (rewrite Ht, Hm; reflexivity).
  split; [|split].
  - intros Hf. rewrite result_eq, Hchk.
    destruct (collectible_settings_spec p (pre_collectible p)) as (v & Ev & _).
    rewrite Ev. unfold theme_specific. rewrite Ht, Hm, Hf. reflexivity.
  - intros target Hf Hr. rewrite result_eq, Hchk.
    destruct (collectible_settings_spec p (pre_collectible p)) as (v & Ev & _).
    rewrite Ev. unfold theme_specific. rewrite Ht, Hm, Hf. cbn.
    destruct (Z.leb_spec 1 target), (Z.leb_spec target 3); try lia; reflexivity.
  - intros target Hf Hr. enter_theme_stage p Hchk. rewrite Ht, Hm, Hf. cbn.
    destruct (Z.leb_spec 1 target), (Z.leb_spec target 3); try lia. cbn.
    eexists; split; [reflexivity|]. rewrite obj_lookup_insert. reflexivity.
Qed.

(** C4: for the Sarkaz theme with mode 1, the seed flag without a seed
    is a fatal error; a seed without the flag is ignored with a warning and
    no [start_with_seed] key; the flag with a seed puts the seed under
    [start_with_seed]. *)
Theorem sarkaz_seed p :
  theme p = Sarkaz -> mode p = 1%Z ->
  (start_with_seed p = true -> seed p = None -> result p = inr ErrNoSeed) /\
  (forall s, start_with_seed p = false -> seed p = Some s ->
     In WarnSeedIgnored (warnings p) /\
     exists o, output p = Some o /\ obj_lookup "start_with_seed" o = None) /\
  (forall s, start_with_seed p = true -> seed p = Some s ->
     exists o, output p = Some o /\ obj_lookup "start_with_seed" o = Some (VStr s)).
Proof.
  intros Ht Hm.
  assert (Hchk : snd (check_mode (theme p) (mode p)) = inl tt)
    by (rewrite Ht, Hm; reflexivity).
  split; [|split].
  - intros Hw Hs. rewrite result_eq, Hchk.
    destruct (collectible_settings_spec p (pre_collectible p)) as (v & Ev & _).
    rewrite Ev. unfold theme_specific. rewrite Ht, Hm, Hw, Hs. reflexivity.
  - intros s Hw Hs. split.
    + destruct (warnings_eq p Hchk) as [rest ->]. apply in_or_app. left.
      unfold validate_params, warn. rewrite !when_log.
      rewrite Hw, Hs. cbn. now left.
    + enter_theme_stage p Hchk. rewrite Ht, Hm, Hw. cbn.
      eexists; split; [reflexivity|]. apply HV. cbn; tauto.
  - intros s Hw Hs. enter_theme_stage p Hchk. rewrite Ht, Hm, Hw, Hs. cbn.
    eexists; split; [reflexivity|]. rewrite obj_lookup_insert. reflexivity.
Qed.

(** C8: for the Sami theme with mode 5, an empty list of expected
    collapsal paradigms is a fatal error; a non-empty one gives a
    successful resolution with both check booleans set to true, the
    paradigm list, and the [use_foldartal] boolean. *)
Theorem sami_mode5_paradigms p :
  theme p = Sami -> mode p = 5%Z ->
  (expected_collapsal_paradigms p = [] -> result p = inr ErrNoParadigm) /\
  (expected_collapsal_paradigms p <> [] ->
     exists o, output p = Some o /\
       obj_lookup "check_collapsal_paradigms" o = Some (VBool true) /\
       obj_lookup "double_check_collapsal_paradigms" o = Some (VBool true) /\
       obj_lookup "expected_collapsal_paradigms" o =
         Some (VList (expected_collapsal_paradigms p)) /\
       obj_lookup "use_foldartal" o = Some (VBool (use_foldartal p))).
Proof.
  intros Ht Hm.
  assert (Hchk : snd (check_mode (theme p) (mode p)) = inl tt)
    by (rewrite Ht, Hm; reflexivity).
  split.
  - intros He. rewrite result_eq, Hchk.
    destruct (collectible_settings_spec p (pre_collectible p)) as (v & Ev & _).
    rewrite Ev. unfold theme_specific. rewrite Ht, Hm, He. reflexivity.
  - intros He. enter_theme_stage p Hchk. rewrite Ht, Hm. cbn.
    destruct (expected_collapsal_paradigms p) as [|x xs]; [contradiction|]. cbn.
    eexists; split; [reflexivity|].
    repeat rewrite obj_lookup_insert; cbn;
      repeat match goal with |- context [if ?c then _ else _] => destruct c end;
      repeat split; repeat rewrite obj_lookup_insert; reflexivity.
Qed.

(** C5: for the Sami theme, a successful resolution puts the new-squad2
    starting foldartals under [start_foldartal_list] when their flag is set
    and the list is non-empty, whatever the general list; otherwise the
    general list when it is non-empty; otherwise the key is absent (in
    particular when both lists are empty). *)
Theorem sami_start_foldartal_precedence p o :
  theme p = Sami -> output p = Some o ->
  (sami_new_squad2_starting_foldartal p = true ->
   sami_new_squad2_starting_foldartals p <> [] ->
   obj_lookup "start_foldartal_list" o =
     Some (VList (sami_new_squad2_starting_foldartals p))) /\
  ((sami_new_squad2_starting_foldartal p = false \/
    sami_new_squad2_starting_foldartals p = []) ->
   start_foldartals p <> [] ->
   obj_lookup "start_foldartal_list" o = Some (VList (start_foldartals p))) /\
  ((sami_new_squad2_starting_foldartal p = false \/
    sami_new_squad2_starting_foldartals p = []) ->
   start_foldartals p = [] ->
   obj_lookup "start_foldartal_list" o = None) /\
  (sami_new_squad2_starting_foldartals p = [] -> start_foldartals p = [] ->
   obj_lookup "start_foldartal_list" o = None).
Proof.
  intros Ht Ho.
  unfold output in Ho. rewrite result_eq in Ho.
  destruct (snd (check_mode (theme p) (mode p))) as [[]|e] eqn:Hchk;
    [|discriminate].
  destruct (collectible_settings_spec p (pre_collectible p)) as (v & Ev & _).
  rewrite Ev in Ho.
  pose proof (pre_theme_absent p v Ev "start_foldartal_list"%string) as HV.
  revert HV Ho.
  generalize (deep_settings p (monthly_settings p v)). intros V HV Ho.
  specialize (HV ltac:(cbn; tauto)).
  unfold theme_specific in Ho. rewrite Ht in Ho. cbn in Ho.
  destruct (sami_new_squad2_starting_foldartal p) eqn:Hf,
    (sami_new_squad2_starting_foldartals p) as [|x xs] eqn:Hl,
    (start_foldartals p) as [|y ys] eqn:Hg;
    cbn in Ho;
    (destruct (mode p =? 5)%Z;
     [destruct (is_empty (expected_collapsal_paradigms p)); [discriminate|]|]);
    cbn in Ho; injection Ho as <-;
    destruct ((mode p =? 4)%Z && sami_first_floor_foldartal p && _);
    repeat rewrite obj_lookup_insert; cbn; rewrite ?HV;
    repeat split; intros; try discriminate; try congruence;
    try (destruct H; discriminate); try reflexivity.
Qed.

Definition mode_keys : list string :=
  ["monthly_squad_auto_iterate"; "monthly_squad_check_comms";
   "deep_exploration_auto_iterate"]%string.

(** A key no later stage writes keeps its value from [pre_collectible]. *)
Lemma output_lookup_pre p o k :
  output p = Some o ->
  ~ In k theme_keys -> ~ In k collectible_keys -> ~ In k mode_keys ->
  obj_lookup k o = obj_lookup k (pre_collectible p).
Proof.
  intros Ho Ht Hc Hm. unfold output in Ho. rewrite result_eq in Ho.
  destruct (snd (check_mode (theme p) (mode p))); [|discriminate].
  destruct (collectible_settings_spec p (pre_collectible p)) as (v & Ev & Hf).
  rewrite Ev in Ho.
  destruct (snd (theme_specific p _)) as [v'|] eqn:E; [|discriminate].
  injection Ho as <-. rewrite (theme_specific_frame _ _ _ E k Ht).
  unfold deep_settings, monthly_settings.
  destruct (mode p =? 7)%Z, (mode p =? 6)%Z; lookup_simpl Hm; apply Hf, Hc.
Qed.

Ltac not_in := cbn; intuition discriminate.

(** C2: in a successful resolution with investment disabled, the only
    investment key is [investment_enabled], set to false; with it enabled,
    [investment_enabled] is true, [investment_with_more_score] is the flag,
    [stop_when_investment_full] is the negation of
    [no_stop_when_investment_full], and [investments_count] is present
    exactly when given. *)
Theorem investment_keys p o :
  output p = Some o ->
  (disable_investment p = true ->
   obj_lookup "investment_enabled" o = Some (VBool false) /\
   obj_lookup "investments_count" o = None /\
   obj_lookup "investment_with_more_score" o = None /\
   obj_lookup "stop_when_investment_full" o = None) /\
  (disable_investment p = false ->
   obj_lookup "investment_enabled" o = Some (VBool true) /\
   obj_lookup "investments_count" o = option_map VInt (investments_count p) /\
   obj_lookup "investment_with_more_score" o =
     Some (VBool (investment_with_more_score p)) /\
   obj_lookup "stop_when_investment_full" o =
     Some (VBool (negb (no_stop_when_investment_full p)))).
Proof.
  intros Ho.
  rewrite !(output_lookup_pre p o _ Ho) by not_in.
  unfold pre_collectible, elite_settings, support_settings, investment_settings,
    difficulty_value, base_value.
  split; intros Hd; rewrite Hd;
    destruct (start_with_elite_two p), (is_Phantom (theme p));
    repeat rewrite ?obj_lookup_insert, ?obj_lookup_insert_opt; cbn;
    destruct (investments_count p); cbn; repeat split.
Qed.

(** C7 (amended): for the Phantom theme with a mode that passes the mode
    check, a supplied difficulty is dropped with a warning and resolution
    succeeds without a [difficulty] key; in every successful resolution the
    [difficulty] key is absent for Phantom and, for the other themes,
    present exactly when a difficulty was supplied, with that value. *)
Theorem difficulty_key p :
  (theme p = Phantom -> difficulty p <> None ->
   snd (check_mode (theme p) (mode p)) = inl tt ->
   In WarnDifficultyIgnored (warnings p) /\
   exists o, output p = Some o /\ obj_lookup "difficulty" o = None) /\
  (forall o, output p = Some o ->
   obj_lookup "difficulty" o =
     if is_Phantom (theme p) then None else option_map VInt (difficulty p)).
Proof.
  assert (Hpre : forall o, output p = Some o ->
            obj_lookup "difficulty" o =
            if is_Phantom (theme p) then None
            else option_map VInt (difficulty p)).
  { intros o Ho. rewrite (output_lookup_pre p o _ Ho) by not_in.
    unfold pre_collectible, elite_settings, support_settings,
      investment_settings, difficulty_value, base_value.
    destruct (start_with_elite_two p), (disable_investment p),
      (is_Phantom (theme p)), (difficulty p);
      repeat rewrite ?obj_lookup_insert, ?obj_lookup_insert_opt; reflexivity. }
  split; [|exact Hpre].
  intros Ht Hd Hchk. split.
  - destruct (warnings_eq p Hchk) as [rest ->].
    apply in_or_app. right. apply in_or_app. left.
    unfold difficulty_setting, warn. rewrite Ht.
    destruct (difficulty p); [|contradiction]. cbn. now left.
  - assert (Hs : exists o, output p = Some o).
    { unfold output. rewrite result_eq, Hchk.
      destruct (collectible_settings_spec p (pre_collectible p)) as (v & Ev & _).
      rewrite Ev. unfold theme_specific. rewrite Ht. eexists; reflexivity. }
    destruct Hs as [o Ho]. exists o. split; [exact Ho|].
    rewrite (Hpre o Ho), Ht. reflexivity.
Qed.

Lemma check_mode_errors t m e :
  snd (check_mode t m) = inr e ->
  In e [ErrMode5Sami; ErrMode20001JieGarden; ErrModeRange].
Proof.
  unfold check_mode.
  destruct (_ && _); [intros H; injection H as <-; cbn; tauto|].
  destruct (_ && _); [intros H; injection H as <-; cbn; tauto|].
  destruct (_ || _); [discriminate|intros H; injection H as <-; cbn; tauto].
Qed.

Lemma theme_specific_errors p v e :
  snd (theme_specific p v) = inr e ->
  In e [ErrNoParadigm; ErrNoSeed; ErrTargetRange; ErrNoTarget].
Proof.
  unfold theme_specific. intros H.
  destruct (theme p); cbn in H; try discriminate.
  - destruct (mode p =? 5)%Z; [|discriminate].
    destruct (is_empty _); [|discriminate]. injection H as <-. cbn; tauto.
  - destruct (mode p =? 1)%Z, (start_with_seed p); try discriminate.
    destruct (seed p); [discriminate|]. injection H as <-. cbn; tauto.
  - destruct (mode p =? 20001)%Z; [|discriminate].
    destruct (find_playtime_target p); [|injection H as <-; cbn; tauto].
    destruct (negb _); [|discriminate]. injection H as <-. cbn; tauto.
Qed.

(** C1 (amended): the mode check fails exactly for mode 5 with a theme
    other than Sami, mode 20001 with a theme other than JieGarden, and a
    mode outside 0..=7 other than 20001; so modes 0..=7 other than 5 pass
    it for every theme. A failed check fails the resolution with its
    error; once it passes, resolution can only fail for a missing
    theme-specific input (paradigms, seed or playtime target). *)
Theorem mode_compatibility p :
  (snd (check_mode (theme p) (mode p)) = inl tt <->
   ~ ((mode p = 5 /\ theme p <> Sami) \/ (mode p = 20001 /\ theme p <> JieGarden)
      \/ ~ ((0 <= mode p <= 7) \/ mode p = 20001))%Z) /\
  ((0 <= mode p <= 7)%Z -> mode p <> 5%Z ->
   snd (check_mode (theme p) (mode p)) = inl tt) /\
  (forall e, snd (check_mode (theme p) (mode p)) = inr e -> result p = inr e) /\
  (forall e, result p = inr e ->
   snd (check_mode (theme p) (mode p)) = inr e \/
   In e [ErrNoParadigm; ErrNoSeed; ErrTargetRange; ErrNoTarget]).
Proof.
  split; [apply check_mode_legal|split; [|split]].
  - intros Hr H5. apply check_mode_legal.
    intros [[H _]|[[H _]|H]]; [contradiction|lia|].
    apply H. now left.
  - intros e He. rewrite result_eq, He. reflexivity.
  - intros e He. rewrite result_eq in He.
    destruct (snd (check_mode _ _)) as [[]|e'] eqn:Hc;
      [|injection He as <-; now left].
    right.
    destruct (collectible_settings_spec p (pre_collectible p)) as (v & Ev & _).
    rewrite Ev in He.
    destruct (snd (theme_specific p _)) eqn:Et; [discriminate|].
    injection He as <-. eapply theme_specific_errors. exact Et.
Qed.

(** The mode-5 check rejects a theme other than Sami although 5 is in
    0..=7, and a Sami mode-5 call with a legal mode still fails. *)
Lemma mode_compatibility_counterexample :
  snd (check_mode Phantom 5) = inr ErrMode5Sami /\
  result (cli Phantom 5) = inr ErrMode5Sami /\
  snd (check_mode Sami 5) = inl tt /\
  result (cli Sami 5) = inr ErrNoParadigm.
Proof. repeat split; reflexivity. Qed.

(** C7: a Phantom call with a difficulty and an illegal mode fails. *)
Lemma difficulty_key_counterexample :
  result (with_difficulty (cli Phantom 8) (Some 15%Z)) = inr ErrModeRange.
Proof. reflexivity. Qed.

(** C9 (amended): when the seed flag is set but the theme is not Sarkaz
    or the mode is not 1, resolution never fails with the missing-seed
    error, and a successful resolution has no [start_with_seed] key; the
    flag is warned about as ignored when the mode check passes, while a
    failed mode check fails the resolution with its error before any
    warning is logged. *)
Theorem seed_error_scope p :
  start_with_seed p = true -> ~ (theme p = Sarkaz /\ mode p = 1%Z) ->
  result p <> inr ErrNoSeed /\
  (snd (check_mode (theme p) (mode p)) = inl tt ->
   In WarnSeedFlagIgnored (warnings p)) /\
  (forall o, output p = Some o -> obj_lookup "start_with_seed" o = None) /\
  (forall e, snd (check_mode (theme p) (mode p)) = inr e ->
   result p = inr e /\ warnings p = []).
Proof.
  intros Hw Hn.
  assert (Hts : forall V, snd (theme_specific p V) <> inr ErrNoSeed /\
            forall V', snd (theme_specific p V) = inl V' ->
            obj_lookup "start_with_seed" V' = obj_lookup "start_with_seed" V).
  { intros V. unfold theme_specific.
    destruct (theme p) eqn:Ht; cbn.
    - split; [discriminate|]. intros V' H. now injection H as <-.
    - split; [discriminate|]. intros V' H. injection H as <-.
      rewrite obj_lookup_insert. reflexivity.
    - destruct (mode p =? 5)%Z;
        [destruct (is_empty (expected_collapsal_paradigms p))|];
        (split; [discriminate|]); intros V' H; try discriminate;
        injection H as <-; repeat rewrite obj_lookup_insert; cbn;
        repeat match goal with |- context [if ?c then _ else _] => destruct c end;
        repeat rewrite obj_lookup_insert; reflexivity.
    - destruct (Z.eqb_spec (mode p) 1) as [Hm|Hm]; [exfalso; now apply Hn|].
      split; [discriminate|]. intros V' H. now injection H as <-.
    - destruct (mode p =? 20001)%Z;
        [destruct (find_playtime_target p) as [t|];
         [destruct (negb _)|]|];
        (split; [discriminate|]); intros V' H; try discriminate;
        injection H as <-; rewrite ?obj_lookup_insert; reflexivity. }
  split; [|split; [|split]].
  - rewrite result_eq. destruct (snd (check_mode _ _)) eqn:Hc.
    2:{ intros H. injection H as ->. apply check_mode_errors in Hc.
        cbn in Hc. intuition discriminate. }
    destruct (collectible_settings_spec p (pre_collectible p)) as (v & Ev & _).
    rewrite Ev.
    destruct (Hts (deep_settings p (monthly_settings p v))) as [Hne _].
    destruct (snd (theme_specific _ _)); [discriminate|].
    intros H. injection H as ->. now apply Hne.
  - intros Hchk. destruct (warnings_eq p Hchk) as [rest ->].
    apply in_or_app. left.
    unfold validate_params, warn. rewrite !when_log. rewrite Hw.
    assert (Hc : negb (is_Sarkaz (theme p)) || negb (mode p =? 1)%Z = true).
    { destruct (theme p); try reflexivity. cbn.
      destruct (Z.eqb_spec (mode p) 1) as [Hm|Hm]; [exfalso; now apply Hn|].
      reflexivity. }
    cbn [andb]. rewrite Hc. cbn. now left.
  - intros o Ho. unfold output in Ho. rewrite result_eq in Ho.
    destruct (snd (check_mode _ _)); [|discriminate].
    destruct (collectible_settings_spec p (pre_collectible p)) as (v & Ev & _).
    rewrite Ev in Ho.
    destruct (Hts (deep_settings p (monthly_settings p v))) as [_ Hl].
    destruct (snd (theme_specific _ _)) as [V'|] eqn:E; [|discriminate].
    injection Ho as <-. rewrite (Hl V' eq_refl).
    apply (pre_theme_absent p v Ev). cbn; tauto.
  - intros e He. split.
    + rewrite result_eq, He. reflexivity.
    + unfold warnings, resolve, into_parameters_no_context.
      rewrite fst_bind, check_mode_log, He. reflexivity.
Qed.

(** C9: a Phantom call in the illegal mode 8 with the seed flag and no
    seed logs no warning; it fails with the mode-range error. *)
Lemma seed_error_scope_counterexample :
  warnings (with_seed (cli Phantom 8) true None) = [] /\
  result (with_seed (cli Phantom 8) true None) = inr ErrModeRange.
Proof. split; reflexivity. Qed.

(** ** The award sub-mapping *)

Lemma collectible_awards_some s v :
  exists v' R,
    snd (collectible_awards (Some s) v) = inl v' /\
    NoDup (map fst R) /\
    (forall k, obj_lookup k R =
               if recognized (split_comma s) k then Some (VBool true) else None) /\
    ((obj_lookup "collectible_mode_start_list" v' = Some (VObj R) /\
      exists a, In a (split_comma s) /\ award_key (trim a) <> None) \/
     (obj_lookup "collectible_mode_start_list" v' =
        obj_lookup "collectible_mode_start_list" v /\
      forall a, In a (split_comma s) -> award_key (trim a) = None)) /\
    (forall k, k <> "collectible_mode_start_list"%string ->
               obj_lookup k v' = obj_lookup k v).
Proof.
  destruct (award_loop_spec (split_comma s) [] 0) as (R & n & E & Hl & Hc & Hd).
  unfold collectible_awards. rewrite snd_bind.
  match goal with
  | |- context [snd (award_loop ?a ?b)] =>
      replace (snd (award_loop a b)) with (@inl (obj * nat) error (R, n))
        by exact (eq_sym E)
  end.
  cbn [snd ret].
  eexists; exists R. split; [reflexivity|]. split; [now apply Hd; constructor|].
  split; [intros k; rewrite Hl; destruct (recognized _ k); reflexivity|].
  split.
  - destruct (Nat.ltb_spec 0 n) as [Hn|Hn].
    + left. rewrite obj_lookup_insert. split; [reflexivity|].
      apply Hc in Hn. destruct Hn as [Hn|Hn]; [lia|exact Hn].
    + right. split; [reflexivity|]. intros a Ha.
      destruct (award_key (trim a)) eqn:Ek; [|reflexivity].
      exfalso. assert (0 < n) by (apply Hc; right; exists a; split; congruence).
      lia.
  - intros k Hk. destruct (0 <? n); [|reflexivity].
    rewrite obj_lookup_insert.
    destruct (String.eqb_spec k "collectible_mode_start_list");
      [contradiction|reflexivity].
Qed.

Lemma award_key_table n k : In (n, k) reward_map <-> award_key n = Some k.
Proof.
  split.
  - intros H. cbn in H. repeat destruct H as [H|H]; try contradiction;
      injection H as <- <-; reflexivity.
  - intros H. unfold award_key in H.
    destruct (List.find _ reward_map) as [[n' k']|] eqn:Ef; [|discriminate].
    injection H as <-.
    pose proof (find_some _ _ Ef) as [Hin Heq]. cbn in Heq.
    unfold ustr_eqb in Heq. destruct (list_eq_dec N.eq_dec n' n); [|discriminate].
    subst n'. exact Hin.
Qed.

Lemma theme_specific_ok p V1 V2 :
  is_ok (snd (theme_specific p V1)) = is_ok (snd (theme_specific p V2)).
Proof.
  unfold theme_specific.
  destruct (theme p); cbn; try reflexivity;
    repeat match goal with
    | |- context [if ?c then _ else _] => destruct c
    | |- context [match ?x with Some _ => _ | None => _ end] => destruct x
    end; reflexivity.
Qed.

Lemma pre_collectible_no_start_list p :
  obj_lookup "collectible_mode_start_list" (pre_collectible p) = None.
Proof.
  unfold pre_collectible, elite_settings, support_settings, investment_settings,
    difficulty_value, base_value.
  destruct (start_with_elite_two p), (disable_investment p), (is_Phantom (theme p));
    repeat rewrite ?obj_lookup_insert, ?obj_lookup_insert_opt; reflexivity.
Qed.

(** C6: in mode 4 with an award string [s], the awards never make the
    resolution fail (it succeeds exactly when it does without the award
    option); in a successful resolution the [collectible_mode_start_list]
    key is absent exactly when no token is recognised, and when some token
    is recognised it is an object mapping each recognised token's output
    key, and only those, to true; the table
    maps the nine names to their keys, "idea" to "ideas"; and the string
    "hot_water,invalid,shield" gives exactly hot_water and shield. *)
Theorem collectible_award_map p s :
  mode p = 4%Z -> collectible_start_awards p = Some s ->
  is_ok (result p) = is_ok (result (with_awards p None)) /\
  (forall o, output p = Some o ->
   (obj_lookup "collectible_mode_start_list" o = None <->
    forall a, In a (split_comma s) -> award_key (trim a) = None) /\
   ((exists a, In a (split_comma s) /\ award_key (trim a) <> None) ->
    exists R, obj_lookup "collectible_mode_start_list" o = Some (VObj R) /\
      forall k, obj_lookup k R =
                if recognized (split_comma s) k then Some (VBool true) else None)) /\
  award_key (of_string "idea") = Some "ideas"%string /\
  (forall n k, In (n, k) reward_map <-> award_key n = Some k) /\
  (s = of_string "hot_water,invalid,shield" ->
   forall o, output p = Some o ->
   exists R, obj_lookup "collectible_mode_start_list" o = Some (VObj R) /\
     forall k, obj_lookup k R =
               if (String.eqb k "hot_water" || String.eqb k "shield")%bool
               then Some (VBool true) else None).
Proof.
  intros Hm Ha.
  set (base := obj_insert "collectible_mode_shopping" (VBool (collectible_shopping p))
                 (obj_insert_opt "collectible_mode_squad" VStr
                    (collectible_squad p) (pre_collectible p))).
  destruct (collectible_awards_some s base)
    as (v' & R & E & Hnd & HR & Hlist & Hrest).
  assert (Ec : snd (collectible_settings p (pre_collectible p)) = inl v')
    by (unfold collectible_settings; rewrite Hm, Ha; exact E).
  assert (Hbase : obj_lookup "collectible_mode_start_list" base = None)
    by (unfold base; rewrite obj_lookup_insert, obj_lookup_insert_opt;
        apply pre_collectible_no_start_list).
  (* the start list of a successful output is the one of [v'] *)
  assert (Hout : forall o, output p = Some o ->
            obj_lookup "collectible_mode_start_list" o =
            obj_lookup "collectible_mode_start_list" v').
  { intros o Ho. unfold output in Ho. rewrite result_eq in Ho.
    destruct (snd (check_mode _ _)); [|discriminate].
    rewrite Ec in Ho.
    destruct (snd (theme_specific p _)) as [V'|] eqn:Et; [|discriminate].
    injection Ho as <-.
    rewrite (theme_specific_frame _ _ _ Et) by not_in.
    unfold deep_settings, monthly_settings. rewrite Hm. reflexivity. }
  assert (Hmap : forall o, output p = Some o ->
            (obj_lookup "collectible_mode_start_list" o = None <->
             forall a, In a (split_comma s) -> award_key (trim a) = None) /\
            ((exists a, In a (split_comma s) /\ award_key (trim a) <> None) ->
             exists R', obj_lookup "collectible_mode_start_list" o = Some (VObj R') /\
               forall k, obj_lookup k R' =
                 if recognized (split_comma s) k then Some (VBool true) else None)).
  { intros o Ho. rewrite (Hout o Ho).
    destruct Hlist as [[Hl (a & Hin & Hk)]|[Hl Hn]]; rewrite Hl.
    - split; [split; [discriminate|]|].
      + intros H. exfalso. apply Hk, H, Hin.
      + intros _. exists R. split; [reflexivity|exact HR].
    - rewrite Hbase. split; [split; [intros _; exact Hn|reflexivity]|].
      intros (a & Hin & Hk). exfalso. apply Hk, Hn, Hin. }
  split; [|split; [exact Hmap|split; [reflexivity|split; [apply award_key_table|]]]].
  - rewrite !result_eq. cbn [theme mode with_awards].
    destruct (snd (check_mode _ _)); [|reflexivity].
    rewrite Ec.
    destruct (collectible_settings_spec (with_awards p None)
                (pre_collectible (with_awards p None))) as (w & Ew & _).
    rewrite Ew.
    change (theme_specific (with_awards p None)) with (theme_specific p).
    assert (Hok := theme_specific_ok p
                     (deep_settings p (monthly_settings p v'))
                     (deep_settings (with_awards p None)
                        (monthly_settings (with_awards p None) w))).
    destruct (snd (theme_specific p (deep_settings p (monthly_settings p v')))),
      (snd (theme_specific p (deep_settings (with_awards p None)
                                (monthly_settings (with_awards p None) w))));
      cbn in Hok |- *; congruence.
  - intros Hs o Ho. rewrite (Hout o Ho).
    destruct Hlist as [[Hl _]|[_ Hn]].
    + exists R. split; [exact Hl|]. intros k. rewrite HR.
      subst s. unfold recognized. vm_compute split_comma.
      cbn [existsb]. vm_compute (award_key (trim _)).
      rewrite ?orb_false_r. reflexivity.
    + exfalso. subst s.
      assert (Hk : award_key (trim (of_string "hot_water")) = None)
        by (apply Hn; vm_compute split_comma; cbn; tauto).
      discriminate.
Qed.

Lemma trim_start_pad ws n :
  Forall (fun c => is_whitespace c = true) ws ->
  (match n with c :: _ => is_whitespace c = false | [] => True end) ->
  trim_start (ws ++ n) = n.
Proof.
  intros Hws Hn. induction Hws as [|c ws Hc _ IH]; cbn.
  - destruct n as [|c n]; [reflexivity|]. cbn. now rewrite Hn.
  - now rewrite Hc.
Qed.

Lemma trim_pad ws1 n ws2 :
  Forall (fun c => is_whitespace c = true) ws1 ->
  Forall (fun c => is_whitespace c = true) ws2 ->
  Forall (fun c => is_whitespace c = false) n -> n <> [] ->
  trim (ws1 ++ n ++ ws2) = n.
Proof.
  intros H1 H2 Hn Hne. unfold trim.
  rewrite trim_start_pad; [|exact H1|].
  - rewrite rev_app_distr, trim_start_pad, rev_involutive; [reflexivity| |].
    + now apply Forall_rev.
    + destruct (rev n) as [|c r] eqn:Er; [exact I|].
      apply Forall_rev in Hn. rewrite Er in Hn. now inversion Hn.
  - destruct n as [|c n]; [contradiction|]. cbn. now inversion Hn.
Qed.

Lemma lookup_in_keys k v o : obj_lookup k o = Some v -> In k (map fst o).
Proof.
  induction o as [|[k0 v0] o IH]; cbn; [discriminate|].
  destruct (String.eqb_spec k k0) as [->|_]; [intros _; now left|].
  intros H. right. auto.
Qed.

(** C10: each comma-separated token is trimmed of surrounding whitespace
    before the lookup (an award name padded with whitespace is recognised);
    the only warnings of the award loop are for the non-empty unrecognised
    trimmed tokens, so empty tokens from consecutive or trailing commas are
    skipped silently; and the award sub-mapping has each key once,
    however often its token repeats: it is set exactly when some token is
    recognised, and then holds each recognised token's key exactly once. *)
Theorem award_tokens_normalised s v :
  (forall ws1 n k ws2,
     Forall (fun c => is_whitespace c = true) ws1 ->
     Forall (fun c => is_whitespace c = true) ws2 ->
     In (n, k) reward_map -> award_key (trim (ws1 ++ n ++ ws2)) = Some k) /\
  fst (collectible_awards (Some s) v) =
    map WarnUnknownAward (unknown_awards (split_comma s)) /\
  (forall a, In (WarnUnknownAward a) (fst (collectible_awards (Some s) v)) ->
     a <> [] /\ award_key a = None) /\
  (forall v', snd (collectible_awards (Some s) v) = inl v' ->
   exists R, NoDup (map fst R) /\
     (forall k, obj_lookup k R =
                if recognized (split_comma s) k then Some (VBool true) else None) /\
     ((obj_lookup "collectible_mode_start_list" v' = Some (VObj R) /\
       exists a, In a (split_comma s) /\ award_key (trim a) <> None) \/
      (obj_lookup "collectible_mode_start_list" v' =
         obj_lookup "collectible_mode_start_list" v /\
       forall a, In a (split_comma s) -> award_key (trim a) = None)) /\
     (forall a k, In a (split_comma s) -> award_key (trim a) = Some k ->
        obj_lookup "collectible_mode_start_list" v' = Some (VObj R) /\
        count_occ string_dec (map fst R) k = 1)).
Proof.
  assert (Hlog : fst (collectible_awards (Some s) v) =
                 map WarnUnknownAward (unknown_awards (split_comma s))).
  { unfold collectible_awards. rewrite fst_bind, award_loop_log.
    destruct (award_loop_spec (split_comma s) [] 0) as (R & n & E & _).
    match goal with
    | |- context [snd (award_loop ?a ?b)] =>
        replace (snd (award_loop a b)) with (@inl (obj * nat) error (R, n))
          by exact (eq_sym E)
    end.
    cbn. apply app_nil_r. }
  split; [|split; [exact Hlog|split]].
  - intros ws1 n k ws2 H1 H2 Hin.
    assert (Hchk : forallb (fun nk => forallb (fun c => negb (is_whitespace c))
                                        (fst nk) && negb (is_empty (fst nk)))
                     reward_map = true) by reflexivity.
    rewrite forallb_forall in Hchk. specialize (Hchk _ Hin). cbn [fst] in Hchk.
    apply andb_true_iff in Hchk as [Hw Hne].
    rewrite trim_pad; [now apply award_key_table|exact H1|exact H2| |].
    + apply Forall_forall. intros c Hc. rewrite forallb_forall in Hw.
      specialize (Hw c Hc). now destruct (is_whitespace c).
    + intros ->. discriminate.
  - intros a Ha. rewrite Hlog in Ha. apply in_map_iff in Ha.
    destruct Ha as (a' & Heq & Ha). injection Heq as ->.
    unfold unknown_awards in Ha. apply filter_In in Ha as [_ Hf].
    apply andb_true_iff in Hf as [He Hk].
    split; [intros ->; discriminate|].
    destruct (award_key a); [discriminate|reflexivity].
  - intros v' Hv'.
    destruct (collectible_awards_some s v)
      as (v'' & R & E & Hnd & HR & Hlist & _).
    rewrite Hv' in E. injection E as <-.
    exists R. split; [exact Hnd|]. split; [exact HR|]. split; [exact Hlist|].
    intros a k Hin Hk.
    destruct Hlist as [[Hl _]|[_ Hn]]; [|rewrite Hn in Hk by exact Hin; discriminate].
    split; [exact Hl|].
    apply (proj1 (NoDup_count_occ' string_dec (map fst R)) Hnd).
    apply lookup_in_keys with (v := VBool true). rewrite HR.
    replace (recognized (split_comma s) k) with true; [reflexivity|].
    symmetry. unfold recognized. apply existsb_exists. exists a.
    split; [exact Hin|]. rewrite Hk. apply String.eqb_refl.
Qed.

(** Instances of C6 and C10 on concrete award strings. *)
Example award_key_padded :
  award_key (trim (of_string " shield ")) = Some "shield"%string.
Proof. reflexivity. Qed.

Example award_empty_tokens_silent :
  fst (collectible_awards (Some (of_string "shield,,hope,")) []) = [].
Proof. reflexivity. Qed.

Example award_duplicates_once :
  snd (collectible_awards (Some (of_string "shield, shield,idea")) []) =
  inl [("collectible_mode_start_list"%string,
        VObj [("shield"%string, VBool true); ("ideas"%string, VBool true)])].
Proof. reflexivity. Qed.

Example award_unknown_warned :
  fst (collectible_awards (Some (of_string "hot_water,invalid,shield")) []) =
  [WarnUnknownAward (of_string "invalid")].
Proof. reflexivity. Qed.

(** ** Witnesses: the claims' hypotheses hold at concrete calls *)

Lemma investment_keys_witness :
  output (cli Phantom 0) = Some (test_default_obj Phantom) /\
  obj_lookup "stop_when_investment_full" (test_default_obj Phantom) =
    Some (VBool true).
Proof.
  split; [reflexivity|].
  apply (proj2 (investment_keys (cli Phantom 0) (test_default_obj Phantom)
                  eq_refl) eq_refl).
Defined.

Lemma jiegarden_playtime_target_witness :
  theme (cli JieGarden 20001) = JieGarden /\ mode (cli JieGarden 20001) = 20001%Z /\
  result (cli JieGarden 20001) = inr ErrNoTarget.
Proof.
  split; [reflexivity|split; [reflexivity|]].
  apply (proj1 (jiegarden_playtime_target (cli JieGarden 20001) eq_refl eq_refl)).
  reflexivity.
Defined.

Lemma sarkaz_seed_witness :
  theme (with_seed (cli Sarkaz 1) true None) = Sarkaz /\
  mode (with_seed (cli Sarkaz 1) true None) = 1%Z /\
  result (with_seed (cli Sarkaz 1) true None) = inr ErrNoSeed.
Proof.
  split; [reflexivity|split; [reflexivity|]].
  apply (proj1 (sarkaz_seed (with_seed (cli Sarkaz 1) true None) eq_refl eq_refl));
    reflexivity.
Defined.

Lemma sami_start_foldartal_precedence_witness :
  let p := with_foldartals (cli Sami 0) true
             [of_string "squad2_foldartal"] [of_string "general_foldartal"] in
  theme p = Sami /\ sami_new_squad2_starting_foldartal p = true /\
  start_foldartals p <> [] /\
  exists o, output p = Some o /\
    obj_lookup "start_foldartal_list" o =
      Some (VList [of_string "squad2_foldartal"]).
Proof.
  intros p. split; [reflexivity|split; [reflexivity|split; [discriminate|]]].
  destruct (output p) as [o|] eqn:Ho; [|discriminate].
  exists o. split; [reflexivity|].
  apply (proj1 (sami_start_foldartal_precedence p o eq_refl Ho));
    [reflexivity|discriminate].
Defined.

Lemma sami_mode5_paradigms_witness :
  theme (cli Sami 5) = Sami /\ mode (cli Sami 5) = 5%Z /\
  result (cli Sami 5) = inr ErrNoParadigm.
Proof.
  split; [reflexivity|split; [reflexivity|]].
  apply (proj1 (sami_mode5_paradigms (cli Sami 5) eq_refl eq_refl)).
  reflexivity.
Defined.

Lemma collectible_award_map_witness :
  let p := with_awards (cli Mizuki 4) (Some (of_string "hot_water,invalid,shield")) in
  mode p = 4%Z /\
  collectible_start_awards p = Some (of_string "hot_water,invalid,shield") /\
  is_ok (result p) = is_ok (result (with_awards p None)).
Proof.
  intros p. split; [reflexivity|split; [reflexivity|]].
  apply (proj1 (collectible_award_map p _ eq_refl eq_refl)).
Defined.

Lemma seed_error_scope_witness :
  let p := with_seed (cli Sami 0) true None in
  start_with_seed p = true /\ ~ (theme p = Sarkaz /\ mode p = 1%Z) /\
  result p <> inr ErrNoSeed.
Proof.
  intros p. split; [reflexivity|].
  assert (Hn : ~ (theme p = Sarkaz /\ mode p = 1%Z))
    by (intros [H _]; discriminate).
  split; [exact Hn|].
  apply (proj1 (seed_error_scope p eq_refl Hn)).
Defined.

(** * Further properties of [roguelike.rs] *)

(** ** Lemmas *)

Lemma output_check p o :
  output p = Some o -> snd (check_mode (theme p) (mode p)) = inl tt.
Proof.
  unfold output. rewrite result_eq.
  destruct (snd (check_mode _ _)) as [[]|]; [reflexivity|discriminate].
Qed.

(** A key the theme specific stage does not write keeps its value from
    the object that stage starts from. *)
Lemma output_lookup_post p o :
  output p = Some o ->
  exists v, snd (collectible_settings p (pre_collectible p)) = inl v /\
    forall k, ~ In k theme_keys ->
      obj_lookup k o = obj_lookup k (deep_settings p (monthly_settings p v)).
Proof.
  intros Ho. unfold output in Ho. rewrite result_eq in Ho.
  destruct (snd (check_mode (theme p) (mode p))); [|discriminate].
  destruct (collectible_settings_spec p (pre_collectible p)) as (v & Ev & _).
  rewrite Ev in Ho. exists v. split; [exact Ev|].
  destruct (snd (theme_specific p _)) as [v'|] eqn:E; [|discriminate].
  injection Ho as <-. intros k Hk. exact (theme_specific_frame _ _ _ E k Hk).
Qed.

Lemma in_keys_lookup k o : In k (map fst o) -> obj_lookup k o <> None.
Proof.
  induction o as [|[k0 v0] o IH]; cbn; [intros []|].
  intros [<-|H]; rewrite ?String.eqb_refl; [discriminate|].
  destruct (String.eqb k k0); [discriminate|auto].
Qed.

Lemma theme_specific_log p v : fst (theme_specific p v) = [].
Proof.
  unfold theme_specific.
  destruct (theme p); cbv beta iota zeta;
    repeat match goal with
    | |- context [if ?c then _ else _] => destruct c
    | |- context [match ?x with Some _ => _ | None => _ end] => destruct x
    end; reflexivity.
Qed.

Lemma collectible_settings_log p v :
  fst (collectible_settings p v) =
  if (mode p =? 4)%Z then
    match collectible_start_awards p with
    | Some s => map WarnUnknownAward (unknown_awards (split_comma s))
    | None => []
    end
  else [].
Proof.
  unfold collectible_settings. destruct (mode p =? 4)%Z; [|reflexivity].
  destruct (collectible_start_awards p) as [s|]; [|reflexivity].
  unfold collectible_awards. rewrite fst_bind, award_loop_log.
  destruct (snd (award_loop _ _)) as [[R n]|]; cbn; apply app_nil_r.
Qed.

(** The whole log of a call. *)
Lemma warnings_log p :
  warnings p =
  match snd (check_mode (theme p) (mode p)) with
  | inr _ => []
  | inl _ =>
      (if start_with_seed p && (negb (is_Sarkaz (theme p)) || negb (mode p =? 1)%Z)
       then [WarnSeedFlagIgnored] else []) ++
      (if is_some (seed p) && negb (start_with_seed p)
       then [WarnSeedIgnored] else []) ++
      (if negb (mode p =? 4)%Z && (is_some (collectible_squad p)
            || collectible_shopping p || is_some (collectible_start_awards p))
       then [WarnCollectibleIgnored] else []) ++
      (if negb (mode p =? 6)%Z
          && (monthly_squad_auto_iterate p || monthly_squad_check_comms p)
       then [WarnMonthlyIgnored] else []) ++
      (if negb (mode p =? 7)%Z && deep_exploration_auto_iterate p
       then [WarnDeepIgnored] else []) ++
      (if is_Phantom (theme p) && is_some (difficulty p)
       then [WarnDifficultyIgnored] else []) ++
      (if (mode p =? 4)%Z then
         match collectible_start_awards p with
         | Some s => map WarnUnknownAward (unknown_awards (split_comma s))
         | None => []
         end
       else [])
  end.
Proof.
  unfold warnings, resolve, into_parameters_no_context.
  rewrite fst_bind, check_mode_log.
  destruct (snd (check_mode (theme p) (mode p))) as [[]|]; [|reflexivity].
  cbn [app]. rewrite fst_bind, validate_params_ok, fst_bind, difficulty_setting_ok.
  rewrite fst_bind.
  destruct (collectible_settings_spec p (pre_collectible p)) as (v & Ev & _).
  unfold pre_collectible in Ev. rewrite Ev, collectible_settings_log.
  cbv zeta. rewrite fst_bind, theme_specific_log.
  destruct (snd (theme_specific _ _)); cbn [fst ret app]; rewrite !app_nil_r;
  unfold validate_params, difficulty_setting; unfold warn; rewrite !when_log;
  cbn [bind fst snd app ret];
  destruct (is_Phantom (theme p)); cbn [andb]; rewrite ?when_log;
  cbn [bind fst snd app ret]; rewrite <- ?app_assoc;
  destruct (negb (mode p =? 4)%Z); reflexivity.
Qed.

(** ** Properties *)

(** [value_variants] lists every theme exactly once, and looking up the
    name [to_possible_value] gives a theme returns that theme. *)
Theorem theme_value_variants :
  (forall t, In t value_variants) /\ NoDup value_variants /\
  (forall t, variant_named (Theme_to_str t) = Some t).
Proof.
  split; [|split].
  - intros []; cbn; tauto.
  - repeat constructor; cbn; intuition discriminate.
  - intros []; reflexivity.
Qed.

(** A successful call always carries the theme name, the mode, the three
    stop flags (the level one under [stop_at_max_level]) and the two
    support flags, and carries [squad], [roles], [core_char] and
    [start_count] exactly when they are given. *)
Theorem base_keys p o :
  output p = Some o ->
  obj_lookup "theme" o = Some (VStr (Theme_to_str (theme p))) /\
  obj_lookup "mode" o = Some (VInt (mode p)) /\
  obj_lookup "squad" o = option_map VStr (squad p) /\
  obj_lookup "roles" o = option_map VStr (roles p) /\
  obj_lookup "core_char" o = option_map VStr (core_char p) /\
  obj_lookup "start_count" o = option_map VInt (start_count p) /\
  obj_lookup "stop_at_final_boss" o = Some (VBool (stop_at_final_boss p)) /\
  obj_lookup "stop_when_deposit_full" o = Some (VBool (stop_when_deposit_full p)) /\
  obj_lookup "stop_at_max_level" o = Some (VBool (stop_when_level_max p)) /\
  obj_lookup "use_support" o = Some (VBool (use_support p)) /\
  obj_lookup "use_nonfriend_support" o = Some (VBool (use_nonfriend_support p)).
Proof.
  intros Ho.
  repeat split; (rewrite (output_lookup_pre p o _ Ho) by not_in);
    unfold pre_collectible, elite_settings, support_settings,
      investment_settings, difficulty_value, base_value;
    destruct (start_with_elite_two p), (disable_investment p),
      (is_Phantom (theme p));
    repeat rewrite ?obj_lookup_insert, ?obj_lookup_insert_opt; cbn;
    repeat match goal with |- context [match ?x with Some _ => _ | None => _ end] =>
      destruct x end; reflexivity.
Qed.

(** In a successful call both elite keys are present exactly when
    [start_with_elite_two] is set; [only_start_with_elite_two] alone
    leaves no key. *)
Theorem elite_keys p o :
  output p = Some o ->
  obj_lookup "start_with_elite_two" o =
    (if start_with_elite_two p then Some (VBool true) else None) /\
  obj_lookup "only_start_with_elite_two" o =
    (if start_with_elite_two p then Some (VBool (only_start_with_elite_two p))
     else None).
Proof.
  intros Ho.
  split; (rewrite (output_lookup_pre p o _ Ho) by not_in);
    unfold pre_collectible, elite_settings, support_settings,
      investment_settings, difficulty_value, base_value;
    destruct (start_with_elite_two p), (disable_investment p),
      (is_Phantom (theme p));
    repeat rewrite ?obj_lookup_insert, ?obj_lookup_insert_opt; reflexivity.
Qed.

(** In a successful call the monthly squad keys are present exactly in
    mode 6, the deep exploration key exactly in mode 7, and the collectible
    shopping and squad keys only in mode 4 (the squad one when given). *)
Theorem mode_gated_keys p o :
  output p = Some o ->
  obj_lookup "monthly_squad_auto_iterate" o =
    (if (mode p =? 6)%Z then Some (VBool (monthly_squad_auto_iterate p)) else None) /\
  obj_lookup "monthly_squad_check_comms" o =
    (if (mode p =? 6)%Z then Some (VBool (monthly_squad_check_comms p)) else None) /\
  obj_lookup "deep_exploration_auto_iterate" o =
    (if (mode p =? 7)%Z then Some (VBool (deep_exploration_auto_iterate p))
     else None) /\
  obj_lookup "collectible_mode_shopping" o =
    (if (mode p =? 4)%Z then Some (VBool (collectible_shopping p)) else None) /\
  obj_lookup "collectible_mode_squad" o =
    (if (mode p =? 4)%Z then option_map VStr (collectible_squad p) else None).
Proof.
  intros Ho. destruct (output_lookup_post p o Ho) as (v & Ev & Hf).
  assert (Hc : forall k, In k collectible_keys ->
            k <> "collectible_mode_start_list"%string ->
            obj_lookup k v =
            if (mode p =? 4)%Z then
              obj_lookup k (obj_insert "collectible_mode_shopping"
                              (VBool (collectible_shopping p))
                              (obj_insert_opt "collectible_mode_squad" VStr
                                 (collectible_squad p) (pre_collectible p)))
            else obj_lookup k (pre_collectible p)).
  { intros k _ Hk. unfold collectible_settings in Ev.
    destruct (mode p =? 4)%Z.
    - destruct (collectible_awards_spec (collectible_start_awards p)
        (obj_insert "collectible_mode_shopping" (VBool (collectible_shopping p))
           (obj_insert_opt "collectible_mode_squad" VStr (collectible_squad p)
              (pre_collectible p)))) as (v' & E' & Hf').
      rewrite Ev in E'. injection E' as <-. apply Hf', Hk.
    - injection Ev as <-. reflexivity. }
  assert (Hpre : forall k, In k collectible_keys \/ In k mode_keys ->
                 obj_lookup k (pre_collectible p) = None).
  { intros k Hk.
    unfold pre_collectible, elite_settings, support_settings,
      investment_settings, difficulty_value, base_value.
    destruct (start_with_elite_two p), (disable_investment p),
      (is_Phantom (theme p));
    repeat rewrite ?obj_lookup_insert, ?obj_lookup_insert_opt;
    repeat match goal with |- context [String.eqb k ?c] =>
      destruct (String.eqb_spec k c);
      [subst; exfalso; cbn in Hk; intuition discriminate|] end;
    reflexivity. }
  destruct (collectible_settings_spec p (pre_collectible p)) as (v' & E' & Hv).
  rewrite Ev in E'. injection E' as <-.
  rewrite !Hf by not_in.
  unfold deep_settings, monthly_settings.
  repeat split;
    destruct (Z.eqb_spec (mode p) 7), (Z.eqb_spec (mode p) 6),
      (Z.eqb_spec (mode p) 4); try lia;
    repeat rewrite obj_lookup_insert; cbn -[obj_lookup];
    try (rewrite Hc by not_in); try (rewrite Hv by not_in);
    repeat rewrite ?obj_lookup_insert, ?obj_lookup_insert_opt; cbn -[obj_lookup];
    try (apply Hpre; not_in);
    repeat match goal with |- context [match ?x with Some _ => _ | None => _ end] =>
      destruct x end; try reflexivity; apply Hpre; not_in.
Qed.

(** In a successful call [refresh_trader_with_dice] is present exactly for
    Mizuki and [use_foldartal] exactly for Sami; [first_floor_foldartal]
    is present exactly for Sami in mode 4 with its flag set and a non-empty
    list; a Phantom call has no theme specific key at all. *)
Theorem theme_gated_keys p o :
  output p = Some o ->
  obj_lookup "refresh_trader_with_dice" o =
    (match theme p with
     | Mizuki => Some (VBool (refresh_trader_with_dice p))
     | _ => None
     end) /\
  obj_lookup "use_foldartal" o =
    (if is_Sami (theme p) then Some (VBool (use_foldartal p)) else None) /\
  obj_lookup "first_floor_foldartal" o =
    (if is_Sami (theme p) && (mode p =? 4)%Z && sami_first_floor_foldartal p
        && negb (is_empty (sami_first_floor_foldartals p))
     then Some (VList (sami_first_floor_foldartals p)) else None) /\
  (theme p = Phantom -> forall k, In k theme_keys -> obj_lookup k o = None).
Proof.
  intros Ho. pose proof (output_check p o Ho) as Hchk. revert Ho.
  enter_theme_stage p Hchk.
  destruct (theme p) eqn:Ht; cbn -[obj_lookup obj_insert];
    repeat match goal with
    | |- context [if ?c then _ else _] => destruct c
    | |- context [match ?x with Some _ => _ | None => _ end] => destruct x
    end; cbn -[obj_lookup obj_insert]; intros H; try discriminate;
    injection H as <-;
    repeat split; try discriminate; try (intros _ k Hk; apply HV, Hk);
    repeat rewrite obj_lookup_insert; cbn; try reflexivity;
    try (apply HV; cbn; tauto).
Qed.

(** A successful call's object has no key outside [output_keys]. *)
Theorem output_keys_known p o :
  output p = Some o -> forall k, In k (map fst o) -> In k output_keys.
Proof.
  intros Ho k Hk. destruct (in_dec string_dec k output_keys) as [|Hn]; [assumption|].
  exfalso. apply (in_keys_lookup _ _ Hk).
  rewrite (output_lookup_pre p o k Ho) by (intros H; apply Hn; cbn in H |- *; tauto).
  unfold pre_collectible, elite_settings, support_settings,
    investment_settings, difficulty_value, base_value.
  destruct (start_with_elite_two p), (disable_investment p),
    (is_Phantom (theme p)); lookup_simpl Hn; reflexivity.
Qed.

(** A call succeeds exactly when the mode check passes and none of the
    three theme specific inputs is missing: the paradigms of Sami mode 5,
    the seed of Sarkaz mode 1 with the seed flag, and a target in 1..=3
    for JieGarden mode 20001. *)
Theorem success_conditions p :
  is_ok (result p) = true <->
  snd (check_mode (theme p) (mode p)) = inl tt /\
  ~ (theme p = Sami /\ mode p = 5%Z /\ expected_collapsal_paradigms p = []) /\
  ~ (theme p = Sarkaz /\ mode p = 1%Z /\ start_with_seed p = true /\
     seed p = None) /\
  ~ (theme p = JieGarden /\ mode p = 20001%Z /\
     forall t, find_playtime_target p = Some t -> ~ (1 <= t <= 3)%Z).
Proof.
  rewrite result_eq.
  destruct (snd (check_mode (theme p) (mode p))) as [[]|e];
    [|split; [discriminate|intros [H _]; discriminate]].
  destruct (collectible_settings_spec p (pre_collectible p)) as (v & Ev & _).
  rewrite Ev. unfold theme_specific.
  destruct (theme p); cbv beta iota zeta.
  - cbn. split; [|reflexivity]. intros _.
    repeat split; intros (H & _); discriminate.
  - cbn. split; [|reflexivity]. intros _.
    repeat split; intros (H & _); discriminate.
  - destruct (Z.eqb_spec (mode p) 5) as [Hm|Hm];
      [destruct (expected_collapsal_paradigms p) eqn:He|]; cbn.
    + split; [discriminate|]. intros (_ & H & _). exfalso. auto.
    + split; [|reflexivity]. intros _.
      repeat split; intros (H & H1 & H2); try discriminate.
    + split; [|reflexivity]. intros _.
      repeat split; intros (H & H1 & H2); try discriminate. contradiction.
  - destruct (Z.eqb_spec (mode p) 1) as [Hm|Hm];
      [destruct (start_with_seed p) eqn:Hs; [destruct (seed p) eqn:Hd|]|]; cbn.
    + split; [|reflexivity]. intros _.
      repeat split; intros (H & H1 & H2); try discriminate.
      destruct H2 as [_ H2]; discriminate.
    + split; [discriminate|]. intros (_ & _ & H & _). exfalso. auto.
    + split; [|reflexivity]. intros _.
      repeat split; intros (H & H1 & H2); try discriminate.
      destruct H2 as [H2 _]; discriminate.
    + split; [|reflexivity]. intros _.
      repeat split; intros (H & H1 & H2); try discriminate. contradiction.
  - destruct (Z.eqb_spec (mode p) 20001) as [Hm|Hm];
      [destruct (find_playtime_target p) as [t|] eqn:Hf|]; cbn.
    + destruct (Z.leb_spec 1 t) as [Hl|Hl], (Z.leb_spec t 3) as [Hu|Hu]; cbn.
      * split; [|reflexivity]. intros _.
        repeat split; intros (H & H1 & H2); try discriminate.
        apply (H2 t eq_refl). lia.
      * split; [discriminate|]. intros (_ & _ & _ & H). exfalso. apply H.
        split; [reflexivity|split; [assumption|]].
        intros t' Ht'. injection Ht' as <-. lia.
      * split; [discriminate|]. intros (_ & _ & _ & H). exfalso. apply H.
        split; [reflexivity|split; [assumption|]].
        intros t' Ht'. injection Ht' as <-. lia.
      * split; [discriminate|]. intros (_ & _ & _ & H). exfalso. apply H.
        split; [reflexivity|split; [assumption|]].
        intros t' Ht'. injection Ht' as <-. lia.
    + split; [discriminate|]. intros (_ & _ & _ & H). exfalso. apply H.
      split; [reflexivity|split; [assumption|]]. discriminate.
    + split; [|reflexivity]. intros _.
      repeat split; intros (H & H1 & H2); try discriminate. contradiction.
Qed.

(** [maa roguelike <theme> --mode <m>] with no other option and a legal
    mode warns about the monthly squad parameters unless [m] is 6 and
    about the deep exploration one unless [m] is 7, as both default to
    true, and about nothing else. *)
Theorem cli_warnings t m :
  snd (check_mode t m) = inl tt ->
  warnings (cli t m) =
  (if (m =? 6)%Z then [] else [WarnMonthlyIgnored]) ++
  (if (m =? 7)%Z then [] else [WarnDeepIgnored]).
Proof.
  intros Hc. rewrite warnings_log. cbn -[check_mode]. rewrite Hc.
  destruct (m =? 6)%Z, (m =? 7)%Z, (m =? 4)%Z, t; reflexivity.
Qed.

(** The [theme] value of a successful call names, among the
    [value_variants], the call's theme. *)
Theorem output_theme_roundtrip p o :
  output p = Some o ->
  exists name, obj_lookup "theme" o = Some (VStr name) /\
               variant_named name = Some (theme p).
Proof.
  intros Ho. exists (Theme_to_str (theme p)). split.
  - rewrite (output_lookup_pre p o _ Ho) by not_in.
    unfold pre_collectible, elite_settings, support_settings,
      investment_settings, difficulty_value, base_value.
    destruct (start_with_elite_two p), (disable_investment p),
      (is_Phantom (theme p));
      repeat rewrite ?obj_lookup_insert, ?obj_lookup_insert_opt; reflexivity.
  - destruct (theme p); reflexivity.
Qed.

(** ** Witnesses *)

Lemma base_keys_witness :
  exists o, output (cli Sarkaz 0) = Some o /\
    obj_lookup "stop_at_max_level" o = Some (VBool false).
Proof.
  destruct (output (cli Sarkaz 0)) as [o|] eqn:Ho; [|discriminate].
  exists o. split; [reflexivity|].
  destruct (base_keys (cli Sarkaz 0) o Ho) as (_ & _ & _ & _ & _ & _ & _ & _ & H & _).
  exact H.
Defined.

Lemma elite_keys_witness :
  exists o, output (cli Phantom 1) = Some o /\
    obj_lookup "only_start_with_elite_two" o = None.
Proof.
  destruct (output (cli Phantom 1)) as [o|] eqn:Ho; [|discriminate].
  exists o. split; [reflexivity|].
  exact (proj2 (elite_keys (cli Phantom 1) o Ho)).
Defined.

Lemma mode_gated_keys_witness :
  exists o, output (cli Mizuki 6) = Some o /\
    obj_lookup "monthly_squad_check_comms" o = Some (VBool true).
Proof.
  destruct (output (cli Mizuki 6)) as [o|] eqn:Ho; [|discriminate].
  exists o. split; [reflexivity|].
  exact (proj1 (proj2 (mode_gated_keys (cli Mizuki 6) o Ho))).
Defined.

Lemma theme_gated_keys_witness :
  exists o, output (cli Mizuki 4) = Some o /\
    obj_lookup "refresh_trader_with_dice" o = Some (VBool false).
Proof.
  destruct (output (cli Mizuki 4)) as [o|] eqn:Ho; [|discriminate].
  exists o. split; [reflexivity|].
  exact (proj1 (theme_gated_keys (cli Mizuki 4) o Ho)).
Defined.

Lemma output_keys_known_witness :
  exists o, output (cli JieGarden 2) = Some o /\
    forall k, In k (map fst o) -> In k output_keys.
Proof.
  destruct (output (cli JieGarden 2)) as [o|] eqn:Ho; [|discriminate].
  exists o. split; [reflexivity|].
  exact (output_keys_known (cli JieGarden 2) o Ho).
Defined.

Lemma cli_warnings_witness :
  snd (check_mode Phantom 0) = inl tt /\
  warnings (cli Phantom 0) = [WarnMonthlyIgnored; WarnDeepIgnored].
Proof.
  split; [reflexivity|].
  apply (cli_warnings Phantom 0%Z). reflexivity.
Defined.

Lemma output_theme_roundtrip_witness :
  exists o, output (cli Sami 3) = Some o /\
    exists name, obj_lookup "theme" o = Some (VStr name) /\
                 variant_named name = Some Sami.
Proof.
  destruct (output (cli Sami 3)) as [o|] eqn:Ho; [|discriminate].
  exists o. split; [reflexivity|].
  exact (output_theme_roundtrip (cli Sami 3) o Ho).
Defined.
